(** * Burst editorial news platform: the views of [news/views.py] and the
    forms of [news/forms.py], embedded as functions over an explicit
    database state.

    A view takes the database, the request (acting user, method, bound
    POST data) and its URL arguments, and returns the HTTP response, the
    messages it queued with [django.contrib.messages] and the database it
    leaves behind. *)

From Stdlib Require Import List String Bool Arith PeanoNat Lia.
From Stdlib Require Import Sorted Permutation.
Import ListNotations.
Open Scope string_scope.
Open Scope list_scope.
Open Scope nat_scope.

(** ** The data model

    The model classes are declared in [models.py], which is absent; each
    record below has the columns the views and forms read or write. Rows
    are keyed by their primary key; foreign keys hold the primary key of
    the row they point to, and a many-to-many field is its join table. *)

Module Role.
(** The values of [User.role] that the views compare against. *)
Inductive t := reader | journalist | editor | publisher.

Definition eqb (a b : t) : bool :=
  match a, b with
  | reader, reader | journalist, journalist
  | editor, editor | publisher, publisher => true
  | _, _ => false
  end.

End Role.

Module Status.
(** Modelled from the spec: the choices of [Article.status] are declared
    in the absent [models.py]; the spec lists [draft], [pending],
    [published] and [rejected] (the views name the middle two). *)
Inductive t := draft | pending | published | rejected.

Definition eqb (a b : t) : bool :=
  match a, b with
  | draft, draft | pending, pending
  | published, published | rejected, rejected => true
  | _, _ => false
  end.

(** The choice strings a bound [status] field accepts. *)
Definition of_string (s : string) : option t :=
  if String.eqb s "draft" then Some draft
  else if String.eqb s "pending" then Some pending
  else if String.eqb s "published" then Some published
  else if String.eqb s "rejected" then Some rejected
  else None.

End Status.

Module User.
Record t := mk {
  pk : nat;
  username : string;
  email : string;
  role : Role.t;
  is_staff : bool
}.

(** Modelled from the spec: [models.py] is absent; the role predicates
    [is_reader], [is_journalist], [is_editor] and [is_publisher] are "pure
    predicates on [user.role]". *)
Definition is_reader (u : t) : bool := Role.eqb (role u) Role.reader.
Definition is_journalist (u : t) : bool := Role.eqb (role u) Role.journalist.
Definition is_editor (u : t) : bool := Role.eqb (role u) Role.editor.
Definition is_publisher (u : t) : bool := Role.eqb (role u) Role.publisher.
End User.

Module Publisher.
Record t := mk {
  pk : nat;
  name : string;
  owner : option nat
}.
End Publisher.

Module Article.
Record t := mk {
  pk : nat;
  title : string;
  content : string;
  summary : string;
  author : nat;
  publisher : option nat;
  category : option nat;
  status : Status.t;
  is_approved : bool;
  approved_by : option nat;
  approved_at : option nat;
  created_at : nat
}.

(** Modelled from the spec: [Article.approve] lives in the absent
    [models.py]; the spec gives it as the transition to [published] that
    "sets an approvedBy/approvedAt marker", with [is_approved] derived
    from [status = published]. *)
Definition approve (a : t) (editor : User.t) (now : nat) : t :=
  mk (pk a) (title a) (content a) (summary a) (author a) (publisher a)
     (category a) Status.published true (Some (User.pk editor)) (Some now)
     (created_at a).
End Article.

Module Newsletter.
Record t := mk {
  pk : nat;
  title : string;
  author : nat;
  publisher : option nat;
  created_at : nat
}.

Definition eqb (a b : t) : bool :=
  (pk a =? pk b) && String.eqb (title a) (title b) && (author a =? author b)
  && match publisher a, publisher b with
     | Some p, Some q => p =? q
     | None, None => true
     | _, _ => false
     end
  && (created_at a =? created_at b).
End Newsletter.

Module Subscription.
Record t := mk {
  pk : nat;
  user : nat;
  publisher : option nat;
  journalist : option nat
}.
End Subscription.

Module PasswordResetToken.
Record t := mk {
  user : nat;
  token : string;
  created_at : nat;
  is_used : bool
}.
End PasswordResetToken.

(** The database: one list of rows per table, in insertion order, and the
    join tables of [Publisher.editors] and [Publisher.journalists] as
    (publisher pk, user pk) pairs. *)
Record DB := mkDB {
  users : list User.t;
  publishers : list Publisher.t;
  publisher_editors : list (nat * nat);
  publisher_journalists : list (nat * nat);
  articles : list Article.t;
  newsletters : list Newsletter.t;
  subscriptions : list Subscription.t;
  reset_tokens : list PasswordResetToken.t
}.

Definition empty_db : DB := mkDB [] [] [] [] [] [] [] [].

Definition set_articles (db : DB) (l : list Article.t) : DB :=
  mkDB (users db) (publishers db) (publisher_editors db)
       (publisher_journalists db) l (newsletters db) (subscriptions db)
       (reset_tokens db).

Definition set_subscriptions (db : DB) (l : list Subscription.t) : DB :=
  mkDB (users db) (publishers db) (publisher_editors db)
       (publisher_journalists db) (articles db) (newsletters db) l
       (reset_tokens db).

Definition set_reset_tokens (db : DB) (l : list PasswordResetToken.t) : DB :=
  mkDB (users db) (publishers db) (publisher_editors db)
       (publisher_journalists db) (articles db) (newsletters db)
       (subscriptions db) l.

(** ** Requests, responses and messages *)

Inductive Method := GET | POST.

(** [request.user] is [None] for an anonymous visitor; [P] is the shape of
    the POST data the view binds its form to. *)
Record Request (P : Type) := mkRequest {
  req_user : option User.t;
  req_method : Method;
  req_POST : P
}.
Arguments mkRequest {P}.
Arguments req_user {P}.
Arguments req_method {P}.
Arguments req_POST {P}.

Inductive Level := INFO | SUCCESS | WARNING | ERROR.

Definition Message : Type := Level * string.

Definition is_error (m : Message) : bool :=
  match fst m with ERROR => true | _ => false end.

(** What a rendered template is given. *)
Inductive Context :=
| CtxArticle (article : Article.t)
| CtxArticleForm (bound : bool) (article : option Article.t)
| CtxArticleList (page_obj : list Article.t) (user_role : Role.t)
| CtxSubscriptions (form_errors : list string) (subs : list Subscription.t)
| CtxSubscription (sub : Subscription.t)
| CtxNewsletters (nls : list Newsletter.t)
| CtxNewsletter (nl : Newsletter.t)
| CtxForm (bound : bool).

Inductive Response :=
| Render (template : string) (ctx : Context)
| Redirect (to : string)
| RedirectPk (to : string) (pk : nat)
| RedirectLogin                      (* [@login_required] *)
| Http404                            (* [get_object_or_404] *)
| Raised (exc : string).             (* an exception no handler catches *)

Record Outcome := mkOutcome {
  response : Response;
  messages : list Message;
  db_after : DB
}.

(** The view refused the request: it queued an error-level message. *)
Definition denied (o : Outcome) : bool := existsb is_error (messages o).

(** ** Queries *)

Definition get_by_pk {A} (pk_of : A -> nat) (table : list A) (pk : nat)
  : option A :=
  find (fun r => pk_of r =? pk) table.

(** [row.save()] of a row that is already stored. *)
Definition save_row {A} (pk_of : A -> nat) (table : list A) (row : A)
  : list A :=
  map (fun r => if pk_of r =? pk_of row then row else r) table.

(** The primary key the next [INSERT] receives, for a table whose key
    sequence stands just past its largest stored key. The database's
    sequence never hands a key out twice, so this is the key as long as the
    row with the largest key has not been deleted; the statements below
    rely on the new key being unused, not on its value. *)
Definition next_pk {A} (pk_of : A -> nat) (table : list A) : nat :=
  S (fold_right Nat.max 0 (map pk_of table)).

(** [publisher.editors.filter(pk=user_pk).exists()] *)
Definition editors_exists (db : DB) (publisher_pk user_pk : nat) : bool :=
  existsb (fun pe => (fst pe =? publisher_pk) && (snd pe =? user_pk))
          (publisher_editors db).

(** The spec's [isEditorOf(user, article.publisher)]: membership in the
    editor set of the article's publisher, false when there is none. *)
Definition isEditorOf (db : DB) (u : User.t) (publisher : option nat) : bool :=
  match publisher with
  | Some p => editors_exists db p (User.pk u)
  | None => false
  end.

Definition status_of (db : DB) (pk : nat) : option Status.t :=
  option_map Article.status (get_by_pk Article.pk (articles db) pk).

(** ** Forms ([news/forms.py]) *)

(** An uploaded file; [content_type] is [None] when the object has no such
    attribute. *)
Record Upload := mkUpload {
  content_type : option string;
  size : nat
}.

Definition allowed_types : list string :=
  ["image/jpeg"; "image/png"; "image/gif"; "image/webp"].

Definition max_size : nat := 5 * 1024 * 1024.

(** [ArticleForm.clean_hero_image]: [None] when it raises
    [ValidationError], otherwise the cleaned value. *)
Definition clean_hero_image (image : option Upload) : option (option Upload) :=
  match image with
  | None => Some None
  | Some img =>
      if match content_type img with
         | Some ct => negb (existsb (String.eqb ct) allowed_types)
         | None => false
         end
      then None
      else if max_size <? size img then None
      else Some image
  end.

(** The model fields an [ArticleForm] writes (the image apart). *)
Record ArticleFields := mkArticleFields {
  f_title : string;
  f_content : string;
  f_summary : string;
  f_publisher : option nat;
  f_category : option nat
}.

(** POST data bound to an [ArticleForm]: [art_fields] is what Django's own
    field validation cleans the text and choice fields to ([None] when one
    of them is rejected), [art_hero_image] the uploaded file. *)
Record ArticlePOST := mkArticlePOST {
  art_fields : option ArticleFields;
  art_hero_image : option Upload
}.

(** [form.is_valid()] of an [ArticleForm], with the cleaned data. *)
Definition ArticleForm_is_valid (p : ArticlePOST) : option ArticleFields :=
  match art_fields p, clean_hero_image (art_hero_image p) with
  | Some f, Some _ => Some f
  | _, _ => None
  end.

(** [ArticleForm(..., instance=article).save(commit=False)]: the form's
    fields are written to the instance, every other column is kept. *)
Definition ArticleForm_apply (a : Article.t) (f : ArticleFields) : Article.t :=
  Article.mk (Article.pk a) (f_title f) (f_content f) (f_summary f)
    (Article.author a) (f_publisher f) (f_category f) (Article.status a)
    (Article.is_approved a) (Article.approved_by a) (Article.approved_at a)
    (Article.created_at a).

(** POST data bound to an [ArticleApprovalForm], whose [Meta.fields] are
    [status] and [is_approved]. *)
Record ApprovalPOST := mkApprovalPOST {
  post_status : string;
  post_is_approved : bool
}.

(** [form.is_valid()] of an [ArticleApprovalForm]: [status] must be one of
    the choices. *)
Definition ArticleApprovalForm_is_valid (p : ApprovalPOST)
  : option (Status.t * bool) :=
  match Status.of_string (post_status p) with
  | Some s => Some (s, post_is_approved p)
  | None => None
  end.

(** [ArticleApprovalForm(..., instance=article).save(commit=False)] *)
Definition ArticleApprovalForm_apply (a : Article.t) (c : Status.t * bool)
  : Article.t :=
  Article.mk (Article.pk a) (Article.title a) (Article.content a)
    (Article.summary a) (Article.author a) (Article.publisher a)
    (Article.category a) (fst c) (snd c) (Article.approved_by a)
    (Article.approved_at a) (Article.created_at a).

(** ** Article views ([news/views.py]) *)

Definition num_pages (count per_page : nat) : nat :=
  (Nat.max 1 count + per_page - 1) / per_page.

(** [Paginator(l, per_page).get_page(number)]: a missing or non-integer
    number gives page 1, a number out of range the last page. *)
Definition get_page {A} (l : list A) (per_page : nat) (number : option nat)
  : list A :=
  let np := num_pages (List.length l) per_page in
  let n := match number with
           | None => 1
           | Some k => if (k <? 1) || (np <? k) then np else k
           end in
  firstn per_page (skipn ((n - 1) * per_page) l).

(** The rows the join of an article with [publisher__editors] yields: one
    per editor of its publisher, or a single row of nulls. *)
Definition editor_links (db : DB) (publisher : option nat)
  : list (option nat) :=
  match publisher with
  | None => [None]
  | Some p =>
      match filter (fun pe => fst pe =? p) (publisher_editors db) with
      | [] => [None]
      | l => map (fun pe => Some (snd pe)) l
      end
  end.

(** [articles.filter(Q(publisher__editors=user) | Q(status='pending'))] *)
Definition editor_queryset (db : DB) (u : User.t) : list Article.t :=
  flat_map
    (fun a =>
       map (fun _ => a)
         (filter
            (fun e =>
               match e with
               | Some k => k =? User.pk u
               | None => false
               end
               || Status.eqb (Article.status a) Status.pending)
            (editor_links db (Article.publisher a))))
    (articles db).

(** The queryset [article_list] paginates, by role of the requester. *)
Definition article_list_queryset (db : DB) (u : User.t) : list Article.t :=
  if User.is_reader u then
    filter (fun a => Status.eqb (Article.status a) Status.published)
           (articles db)
  else if User.is_journalist u then
    filter (fun a => Article.author a =? User.pk u) (articles db)
  else if User.is_editor u then editor_queryset db u
  else articles db.

Definition article_list (db : DB) (request : Request unit)
    (page_number : option nat) : Outcome :=
  match req_user request with
  | None => mkOutcome RedirectLogin [] db
  | Some u =>
      mkOutcome
        (Render "news/article_list.html"
           (CtxArticleList (get_page (article_list_queryset db u) 10 page_number)
                           (User.role u)))
        [] db
  end.

Definition article_detail (db : DB) (request : Request unit) (pk : nat)
  : Outcome :=
  match req_user request with
  | None => mkOutcome RedirectLogin [] db
  | Some u =>
      match get_by_pk Article.pk (articles db) pk with
      | None => mkOutcome Http404 [] db
      | Some article =>
          if User.is_reader u
             && negb (Status.eqb (Article.status article) Status.published)
          then mkOutcome (Redirect "news:article_list")
                 [(ERROR, "This article is not published yet")] db
          else mkOutcome (Render "news/article_detail.html" (CtxArticle article))
                 [] db
      end
  end.

(** Modelled from the spec: the column defaults of a new [Article] are in
    the absent [models.py]; the spec has a new article start in [draft],
    not approved. *)
Definition new_article (pk : nat) (f : ArticleFields) (author now : nat)
  : Article.t :=
  Article.mk pk (f_title f) (f_content f) (f_summary f) author (f_publisher f)
    (f_category f) Status.draft false None None now.

Definition create_article (db : DB) (request : Request ArticlePOST)
    (now : nat) : Outcome :=
  match req_user request with
  | None => mkOutcome RedirectLogin [] db
  | Some u =>
      if negb (User.is_journalist u) then
        mkOutcome (Redirect "news:article_list")
          [(ERROR, "Only journalists can create articles")] db
      else
        match req_method request with
        | POST =>
            match ArticleForm_is_valid (req_POST request) with
            | Some f =>
                let article :=
                  new_article (next_pk Article.pk (articles db)) f
                              (User.pk u) now in
                mkOutcome (RedirectPk "news:article_detail" (Article.pk article))
                  [(SUCCESS, "Article created successfully")]
                  (set_articles db (articles db ++ [article]))
            | None =>
                mkOutcome (Render "news/create_article.html"
                             (CtxArticleForm true None)) [] db
            end
        | GET =>
            mkOutcome (Render "news/create_article.html"
                         (CtxArticleForm false None)) [] db
        end
  end.

Definition edit_article (db : DB) (request : Request ArticlePOST) (pk : nat)
  : Outcome :=
  match req_user request with
  | None => mkOutcome RedirectLogin [] db
  | Some u =>
      match get_by_pk Article.pk (articles db) pk with
      | None => mkOutcome Http404 [] db
      | Some article =>
          if negb ((User.pk u =? Article.author article) || User.is_editor u)
          then mkOutcome (Redirect "news:article_list")
                 [(ERROR, "You do not have permission to edit this article")]
                 db
          else
            match req_method request with
            | POST =>
                match ArticleForm_is_valid (req_POST request) with
                | Some f =>
                    let article := ArticleForm_apply article f in
                    mkOutcome
                      (RedirectPk "news:article_detail" (Article.pk article))
                      [(SUCCESS, "Article updated successfully")]
                      (set_articles db
                         (save_row Article.pk (articles db) article))
                | None =>
                    mkOutcome (Render "news/edit_article.html"
                                 (CtxArticleForm true (Some article))) [] db
                end
            | GET =>
                mkOutcome (Render "news/edit_article.html"
                             (CtxArticleForm false (Some article))) [] db
            end
      end
  end.

Definition approve_article (db : DB) (request : Request ApprovalPOST)
    (now : nat) (pk : nat) : Outcome :=
  match req_user request with
  | None => mkOutcome RedirectLogin [] db
  | Some u =>
      if negb (User.is_editor u) then
        mkOutcome (Redirect "news:article_list")
          [(ERROR, "Only editors can approve articles")] db
      else
        match get_by_pk Article.pk (articles db) pk with
        | None => mkOutcome Http404 [] db
        | Some article =>
            (* Editors may only approve articles from their publisher *)
            if match Article.publisher article with
               | Some p => negb (editors_exists db p (User.pk u))
               | None => false
               end
            then mkOutcome (Redirect "news:article_list")
                   [(ERROR,
                     "You can only approve articles from your publisher.")] db
            else
              match req_method request with
              | POST =>
                  match ArticleApprovalForm_is_valid (req_POST request) with
                  | Some c =>
                      let article := ArticleApprovalForm_apply article c in
                      let article := Article.approve article u now in
                      mkOutcome
                        (RedirectPk "news:article_detail" (Article.pk article))
                        [(SUCCESS, "Article approved successfully")]
                        (set_articles db
                           (save_row Article.pk (articles db) article))
                  | None =>
                      mkOutcome (Render "news/approve_article.html"
                                   (CtxArticleForm true (Some article))) [] db
                  end
              | GET =>
                  mkOutcome (Render "news/approve_article.html"
                               (CtxArticleForm false (Some article))) [] db
              end
        end
  end.

(** ** Subscriptions *)

(** POST data bound to a [SubscriptionForm]: the primary keys chosen in
    the two selects, [None] for the empty choice. *)
Record SubscriptionPOST := mkSubscriptionPOST {
  post_publisher : option nat;
  post_journalist : option nat
}.

(** A [ModelChoiceField(required=False)]: the empty choice cleans to
    [None], a key of the queryset to its row, anything else is an error. *)
Definition clean_choice {A} (pk_of : A -> nat) (queryset : list A)
    (raw : option nat) : option (option A) :=
  match raw with
  | None => Some None
  | Some k =>
      match get_by_pk pk_of queryset k with
      | Some r => Some (Some r)
      | None => None
      end
  end.

Definition invalid_choice : string :=
  "Select a valid choice. That choice is not one of the available choices.".

(** Modelled from the spec: the validation of the [Subscription] model,
    which [ModelForm.is_valid()] runs through [full_clean] on the instance
    built from the cleaned fields, is in the absent [models.py]. The spec
    has a subscription reference "exactly one of {publisher, journalist}
    (never both, never neither)" as an enforced invariant, whose violation
    is the error kind [AmbiguousTarget]. The result is the list of errors
    the model adds to the form. *)
Definition Subscription_clean (publisher : option Publisher.t)
    (journalist : option User.t) : list string :=
  match publisher, journalist with
  | Some _, None | None, Some _ => []
  | _, _ => ["AmbiguousTarget"]
  end.

(** [SubscriptionForm.is_valid()]: the two fields are cleaned against the
    querysets [__init__] gives them, [clean] runs on what was cleaned, and
    the model validates the instance built from it; the result is the
    cleaned (publisher, journalist) or the errors. *)
Definition SubscriptionForm_is_valid (db : DB) (p : SubscriptionPOST)
  : list string + (option Publisher.t * option User.t) :=
  let fp := clean_choice Publisher.pk (publishers db) (post_publisher p) in
  let fj := clean_choice User.pk (filter User.is_journalist (users db))
              (post_journalist p) in
  let field_errors :=
    (match fp with None => [invalid_choice] | Some _ => [] end)
    ++ (match fj with None => [invalid_choice] | Some _ => [] end) in
  (* clean() *)
  let publisher := match fp with Some v => v | None => None end in
  let journalist := match fj with Some v => v | None => None end in
  let errors :=
    field_errors
    ++ match publisher, journalist with
       | None, None =>
           ["You must subscribe to either a publisher or a journalist."]
       | _, _ => []
       end
    (* _post_clean() *)
    ++ Subscription_clean publisher journalist in
  match errors with
  | [] => inr (publisher, journalist)
  | _ => inl errors
  end.

Inductive GetOrCreate (A : Type) :=
| Got (row : A)
| Created (row : A) (table : list A)
| MultipleObjectsReturned.
Arguments Got {A}.
Arguments Created {A}.
Arguments MultipleObjectsReturned {A}.

(** [Model.objects.get_or_create] with its lookup and defaults: the single row
    matching the lookup, or a new row when there is none. *)
Definition get_or_create {A} (pk_of : A -> nat) (lookup : A -> bool)
    (new : nat -> A) (table : list A) : GetOrCreate A :=
  match filter lookup table with
  | [] => let row := new (next_pk pk_of table) in Created row (table ++ [row])
  | [row] => Got row
  | _ => MultipleObjectsReturned
  end.

Definition option_nat_eqb (a : option nat) (b : nat) : bool :=
  match a with Some k => k =? b | None => false end.

Definition lookup_publisher (u p : nat) (s : Subscription.t) : bool :=
  (Subscription.user s =? u) && option_nat_eqb (Subscription.publisher s) p.

Definition lookup_journalist (u j : nat) (s : Subscription.t) : bool :=
  (Subscription.user s =? u) && option_nat_eqb (Subscription.journalist s) j.

Definition subscriptions_of (db : DB) (u : User.t) : list Subscription.t :=
  filter (fun s => Subscription.user s =? User.pk u) (subscriptions db).

Definition subscription_management (db : DB)
    (request : Request SubscriptionPOST) : Outcome :=
  match req_user request with
  | None => mkOutcome RedirectLogin [] db
  | Some u =>
      if negb (User.is_reader u) then
        mkOutcome (Redirect "news:home")
          [(ERROR, "Only readers can manage subscriptions")] db
      else
        match req_method request with
        | POST =>
            match SubscriptionForm_is_valid db (req_POST request) with
            | inr (Some publisher, _) =>
                match get_or_create Subscription.pk
                        (lookup_publisher (User.pk u) (Publisher.pk publisher))
                        (fun k => Subscription.mk k (User.pk u)
                                    (Some (Publisher.pk publisher)) None)
                        (subscriptions db) with
                | Created _ table =>
                    mkOutcome (Redirect "news:subscription_management")
                      [(SUCCESS, String.append "Successfully subscribed to "
                                   (Publisher.name publisher))]
                      (set_subscriptions db table)
                | Got _ =>
                    mkOutcome (Redirect "news:subscription_management")
                      [(WARNING, String.append "You are already subscribed to "
                                   (Publisher.name publisher))] db
                | MultipleObjectsReturned =>
                    mkOutcome (Raised "MultipleObjectsReturned") [] db
                end
            | inr (None, Some journalist) =>
                match get_or_create Subscription.pk
                        (lookup_journalist (User.pk u) (User.pk journalist))
                        (fun k => Subscription.mk k (User.pk u) None
                                    (Some (User.pk journalist)))
                        (subscriptions db) with
                | Created _ table =>
                    mkOutcome (Redirect "news:subscription_management")
                      [(SUCCESS, String.append "Successfully subscribed to "
                                   (User.username journalist))]
                      (set_subscriptions db table)
                | Got _ =>
                    mkOutcome (Redirect "news:subscription_management")
                      [(WARNING, String.append "You are already subscribed to "
                                   (User.username journalist))] db
                | MultipleObjectsReturned =>
                    mkOutcome (Raised "MultipleObjectsReturned") [] db
                end
            | inr (None, None) =>
                mkOutcome (Redirect "news:subscription_management") [] db
            | inl errors =>
                mkOutcome (Render "news/subscription_management.html"
                             (CtxSubscriptions errors (subscriptions_of db u)))
                  [] db
            end
        | GET =>
            mkOutcome (Render "news/subscription_management.html"
                         (CtxSubscriptions [] (subscriptions_of db u))) [] db
        end
  end.

Definition delete_subscription (db : DB) (request : Request unit) (pk : nat)
  : Outcome :=
  match req_user request with
  | None => mkOutcome RedirectLogin [] db
  | Some u =>
      match find (fun s => (Subscription.pk s =? pk)
                           && (Subscription.user s =? User.pk u))
                 (subscriptions db) with
      | None => mkOutcome Http404 [] db
      | Some subscription =>
          match req_method request with
          | POST =>
              mkOutcome (Redirect "news:subscription_management")
                [(SUCCESS, "Subscription removed successfully")]
                (set_subscriptions db
                   (filter (fun s => negb (Subscription.pk s
                                           =? Subscription.pk subscription))
                           (subscriptions db)))
          | GET =>
              mkOutcome (Render "news/delete_subscription.html"
                           (CtxSubscription subscription)) [] db
          end
      end
  end.

(** ** Newsletters *)

(** [order_by('-created_at')]: newest first; rows with equal [created_at]
    keep the order the table has them in. *)
Fixpoint insert_desc (x : Newsletter.t) (l : list Newsletter.t)
  : list Newsletter.t :=
  match l with
  | [] => [x]
  | y :: ys =>
      if Newsletter.created_at y <=? Newsletter.created_at x
      then x :: y :: ys
      else y :: insert_desc x ys
  end.

Definition order_by_created_at_desc (l : list Newsletter.t)
  : list Newsletter.t :=
  fold_right insert_desc [] l.

(** [.distinct()]: equal rows are returned once. *)
Fixpoint distinct (l : list Newsletter.t) : list Newsletter.t :=
  match l with
  | [] => []
  | x :: xs => x :: filter (fun y => negb (Newsletter.eqb x y)) (distinct xs)
  end.

(** [[s.publisher for s in subs if s.publisher]] *)
Definition subscribed_publishers (db : DB) (u : User.t) : list nat :=
  flat_map (fun s => match Subscription.publisher s with
                     | Some p => [p]
                     | None => []
                     end)
           (subscriptions_of db u).

(** [[s.journalist for s in subs if s.journalist]] *)
Definition subscribed_journalists (db : DB) (u : User.t) : list nat :=
  flat_map (fun s => match Subscription.journalist s with
                     | Some j => [j]
                     | None => []
                     end)
           (subscriptions_of db u).

(** [Q(publisher__in=publishers) | Q(author__in=journalists)] *)
Definition in_subscriptions (publishers journalists : list nat)
    (n : Newsletter.t) : bool :=
  match Newsletter.publisher n with
  | Some p => existsb (Nat.eqb p) publishers
  | None => false
  end
  || existsb (Nat.eqb (Newsletter.author n)) journalists.

(** The queryset [newsletter_list] renders, by requester. *)
Definition newsletter_list_queryset (db : DB) (user : option User.t)
  : list Newsletter.t :=
  match user with
  | Some u =>
      if User.is_journalist u then
        order_by_created_at_desc
          (filter (fun n => Newsletter.author n =? User.pk u) (newsletters db))
      else if User.is_reader u then
        let publishers := subscribed_publishers db u in
        let journalists := subscribed_journalists db u in
        firstn 50
          (order_by_created_at_desc
             (distinct
                (filter (in_subscriptions publishers journalists)
                        (newsletters db))))
      else firstn 20 (order_by_created_at_desc (newsletters db))
  | None => firstn 20 (order_by_created_at_desc (newsletters db))
  end.

Definition newsletter_list (db : DB) (request : Request unit) : Outcome :=
  mkOutcome
    (Render "news/newsletter_list.html"
       (CtxNewsletters (newsletter_list_queryset db (req_user request))))
    [] db.

Definition newsletter_detail (db : DB) (request : Request unit) (pk : nat)
  : Outcome :=
  match get_by_pk Newsletter.pk (newsletters db) pk with
  | None => mkOutcome Http404 [] db
  | Some newsletter =>
      mkOutcome (Render "news/newsletter_detail.html" (CtxNewsletter newsletter))
        [] db
  end.

(** ** Password reset request *)

Inductive GetResult (A : Type) :=
| GetOne (row : A)
| DoesNotExist
| GetMultiple.
Arguments GetOne {A}.
Arguments DoesNotExist {A}.
Arguments GetMultiple {A}.

(** [Model.objects.get] with its lookup *)
Definition objects_get {A} (lookup : A -> bool) (table : list A)
  : GetResult A :=
  match filter lookup table with
  | [] => DoesNotExist
  | [row] => GetOne row
  | _ => GetMultiple
  end.

(** What the view draws from outside the database: the token
    [secrets.token_urlsafe(32)] returns, the origin
    [request.build_absolute_uri] prefixes, the exception [send_mail] raises
    ([None]: the mail is handed over) and the clock. *)
Record ResetEnv := mkResetEnv {
  fresh_token : string;
  origin : string;
  send_mail_error : option string;
  reset_now : nat
}.

Record Mail := mkMail {
  mail_subject : string;
  mail_body : string;
  mail_to : list string
}.

(** Besides its outcome, the view hands mails to the mail backend and
    prints to the server's standard output. *)
Record ResetOutcome := mkResetOutcome {
  outcome : Outcome;
  outbox : list Mail;
  stdout : list string
}.

(** [post_email] is what the [EmailField] of a [ForgotPasswordForm] cleans
    the submitted address to, [None] when it rejects it. *)
Definition forgot_password (db : DB) (request : Request (option string))
    (env : ResetEnv) : ResetOutcome :=
  match req_method request with
  | POST =>
      match req_POST request with
      | Some email =>
          match objects_get (fun u => String.eqb (User.email u) email)
                            (users db) with
          | GetOne user =>
              let token := fresh_token env in
              let db' :=
                set_reset_tokens db
                  (reset_tokens db
                   ++ [PasswordResetToken.mk (User.pk user) token
                         (reset_now env) false]) in
              let reset_url :=
                String.append (origin env)
                  (String.append "/reset-password/" (String.append token "/"))
              in
              let done :=
                mkOutcome (Redirect "news:login")
                  [(SUCCESS, "Password reset link sent to your email.")] db' in
              match send_mail_error env with
              | None =>
                  mkResetOutcome done
                    [mkMail "Password Reset Request"
                       (String.append "Click the link to reset your password: "
                                      reset_url)
                       [email]]
                    []
              | Some e =>
                  (* Log the error but don't expose it to the user *)
                  mkResetOutcome done []
                    [String.append "Email sending failed: " e]
              end
          | DoesNotExist =>
              mkResetOutcome
                (mkOutcome (Render "news/forgot_password.html" (CtxForm true))
                   [(ERROR, "No account found with that email address.")] db)
                [] []
          | GetMultiple =>
              mkResetOutcome
                (mkOutcome (Raised "MultipleObjectsReturned") [] db) [] []
          end
      | None =>
          mkResetOutcome
            (mkOutcome (Render "news/forgot_password.html" (CtxForm true))
               [] db) [] []
      end
  | GET =>
      mkResetOutcome
        (mkOutcome (Render "news/forgot_password.html" (CtxForm false)) [] db)
        [] []
  end.

(** ** Sequences of requests *)

Inductive Op :=
| OpArticleList (r : Request unit) (page : option nat)
| OpArticleDetail (r : Request unit) (pk : nat)
| OpCreateArticle (r : Request ArticlePOST) (now : nat)
| OpEditArticle (r : Request ArticlePOST) (pk : nat)
| OpApproveArticle (r : Request ApprovalPOST) (now pk : nat)
| OpSubscriptionManagement (r : Request SubscriptionPOST)
| OpDeleteSubscription (r : Request unit) (pk : nat)
| OpNewsletterList (r : Request unit)
| OpNewsletterDetail (r : Request unit) (pk : nat)
| OpForgotPassword (r : Request (option string)) (env : ResetEnv).

Definition dispatch (db : DB) (op : Op) : Outcome :=
  match op with
  | OpArticleList r page => article_list db r page
  | OpArticleDetail r pk => article_detail db r pk
  | OpCreateArticle r now => create_article db r now
  | OpEditArticle r pk => edit_article db r pk
  | OpApproveArticle r now pk => approve_article db r now pk
  | OpSubscriptionManagement r => subscription_management db r
  | OpDeleteSubscription r pk => delete_subscription db r pk
  | OpNewsletterList r => newsletter_list db r
  | OpNewsletterDetail r pk => newsletter_detail db r pk
  | OpForgotPassword r env => outcome (forgot_password db r env)
  end.

(** The database after serving the requests in order. *)
Definition run (db : DB) (ops : list Op) : DB :=
  fold_left (fun d op => db_after (dispatch d op)) ops db.

(** ** A small newsroom, used to run the views on concrete requests *)

Definition alice : User.t :=
  User.mk 1 "alice" "alice@burst.example" Role.journalist false.
Definition bob : User.t :=
  User.mk 2 "bob" "bob@burst.example" Role.journalist false.
Definition erin : User.t :=
  User.mk 3 "erin" "erin@burst.example" Role.editor false.
Definition eve : User.t :=
  User.mk 4 "eve" "eve@burst.example" Role.editor false.
Definition rita : User.t :=
  User.mk 5 "rita" "rita@burst.example" Role.reader false.

Definition tribune : Publisher.t := Publisher.mk 1 "Tribune" None.

(** Alice's articles: an unaffiliated one awaiting review, one the Tribune
    has published, and a draft for the Tribune. *)
Definition unaffiliated : Article.t :=
  Article.mk 1 "Floods" "Rivers rose overnight." "Flood report" 1 None None Status.pending false None None 10.
Definition printed : Article.t :=
  Article.mk 2 "Budget" "The council voted." "Budget vote" 1 (Some 1) None Status.published true
             (Some 3) (Some 20) 11.
Definition sketch : Article.t :=
  Article.mk 3 "Notes" "To be written." "Notes" 1 (Some 1) None Status.draft false None None 12.

Definition weekly : Newsletter.t := Newsletter.mk 1 "Weekly" 1 (Some 1) 30.
Definition digest : Newsletter.t := Newsletter.mk 2 "Digest" 2 None 40.

(** Erin is the Tribune's only editor; Eve edits for nobody. *)
Definition newsroom : DB :=
  mkDB [alice; bob; erin; eve; rita] [tribune] [(1, 3)] [(1, 1)]
       [unaffiliated; printed; sketch] [weekly; digest] [] [].

Definition approval (s : string) : ApprovalPOST := mkApprovalPOST s true.

Definition rewrite_fields : ArticlePOST :=
  mkArticlePOST (Some (mkArticleFields "Budget 2" "The council voted twice." "Budget vote" (Some 1) None)) None.


(** The guard of [approve_article] on the article's publisher. *)
Definition passes_publisher_guard (db : DB) (u : User.t) (a : Article.t)
  : bool :=
  match Article.publisher a with
  | Some p => editors_exists db p (User.pk u)
  | None => true
  end.

(** What a reader subscribes to: exactly one of a publisher and a
    journalist, by primary key. *)
Inductive Target := ToPublisher (p : nat) | ToJournalist (j : nat).

Definition target_POST (t : Target) : SubscriptionPOST :=
  match t with
  | ToPublisher p => mkSubscriptionPOST (Some p) None
  | ToJournalist j => mkSubscriptionPOST None (Some j)
  end.

(** The target is one of the choices the form offers. *)
Definition valid_target (db : DB) (t : Target) : bool :=
  match t with
  | ToPublisher p =>
      match get_by_pk Publisher.pk (publishers db) p with
      | Some _ => true
      | None => false
      end
  | ToJournalist j =>
      match get_by_pk User.pk (filter User.is_journalist (users db)) j with
      | Some _ => true
      | None => false
      end
  end.

(** The lookup [get_or_create] is given for the key (reader, target). *)
Definition key_lookup (reader : nat) (t : Target) : Subscription.t -> bool :=
  match t with
  | ToPublisher p => lookup_publisher reader p
  | ToJournalist j => lookup_journalist reader j
  end.

(** The stored subscriptions with the uniqueness key (reader, target). *)
Definition key_rows (db : DB) (reader : nat) (t : Target)
  : list Subscription.t :=
  filter (key_lookup reader t) (subscriptions db).

(** The uniqueness key of the spec, (reader, publisher) or (reader,
    journalist), in its words: the row is the reader's and it references
    the target. It is written against the columns, not the view's
    lookups. *)
Definition has_key (reader : nat) (t : Target) (s : Subscription.t) : bool :=
  (Subscription.user s =? reader)
  && match t, Subscription.publisher s, Subscription.journalist s with
     | ToPublisher p, Some q, _ => q =? p
     | ToJournalist j, _, Some q => q =? j
     | _, _, _ => false
     end.

(** The name the messages call the target by. *)
Definition target_name (db : DB) (t : Target) : option string :=
  match t with
  | ToPublisher p =>
      option_map Publisher.name (get_by_pk Publisher.pk (publishers db) p)
  | ToJournalist j =>
      option_map User.username
        (get_by_pk User.pk (filter User.is_journalist (users db)) j)
  end.

(** No uniqueness key is stored twice. *)
Definition unique_keys (db : DB) : Prop :=
  forall reader t, List.length (key_rows db reader t) <= 1.

(** The reader [u] posts the subscription form with the single target. *)
Definition subscribe (db : DB) (u : User.t) (t : Target) : Outcome :=
  subscription_management db (mkRequest (Some u) POST (target_POST t)).

(** Rita asks for the Tribune and for Alice at once. *)
Definition both_targets : SubscriptionPOST :=
  mkSubscriptionPOST (Some 1) (Some 1).

(** Newest first: the order [order_by('-created_at')] asks for. *)
Definition newer_first (a b : Newsletter.t) : Prop :=
  Newsletter.created_at b <= Newsletter.created_at a.

(** The spec's visible set, in its words: the newsletter's publisher is
    among the publishers the reader subscribed to, or its author among the
    journalists the reader subscribed to. *)
Definition subscribed_to (db : DB) (u : User.t) (n : Newsletter.t) : Prop :=
  exists s,
    In s (subscriptions db)
    /\ Subscription.user s = User.pk u
    /\ ((exists p, Subscription.publisher s = Some p
                   /\ Newsletter.publisher n = Some p)
        \/ Subscription.journalist s = Some (Newsletter.author n)).

(** Rita's feed once she follows the Tribune and Bob. *)
Definition newsroom_subscribed : DB :=
  set_subscriptions newsroom
    [Subscription.mk 1 5 (Some 1) None; Subscription.mk 2 5 None (Some 2)].

(** ** Further predicates on the stored rows *)

(** A subscription names exactly one of a publisher and a journalist. *)
Definition one_target (s : Subscription.t) : bool :=
  match Subscription.publisher s, Subscription.journalist s with
  | Some _, None | None, Some _ => true
  | _, _ => false
  end.

(** What identifies an article for good: its key, who wrote it and when
    it was created. *)
Definition same_origin (a a' : Article.t) : Prop :=
  Article.pk a' = Article.pk a
  /\ Article.author a' = Article.author a
  /\ Article.created_at a' = Article.created_at a.

(** An upload [clean_hero_image] refuses: a declared content type outside
    the allowed ones, or more than 5 MB. *)
Definition bad_image (img : Upload) : Prop :=
  (exists ct, content_type img = Some ct /\ ~ In ct allowed_types)
  \/ max_size < size img.

(** A second reader, and a database in which Rita and Rob both follow the
    Tribune. *)
Definition rob : User.t :=
  User.mk 6 "rob" "rob@burst.example" Role.reader false.

Definition shared_desk : DB :=
  set_subscriptions newsroom
    [Subscription.mk 1 5 (Some 1) None; Subscription.mk 2 6 (Some 1) None].

Definition wrong_type : Upload := mkUpload (Some "text/html") 10.

Definition story_fields : ArticleFields :=
  mkArticleFields "Harvest" "The harvest came early." "Harvest" None None.

(** ** Views outside the article and subscription pages

    These views render pages of their own; [Reply C] is the outcome of a
    view whose template is given a context of type [C]. *)

Inductive Page (C : Type) :=
| Shown (template : string) (ctx : C)
| Sent (to : string)                 (* [redirect(to)] *)
| LoginRequired                      (* the login redirect of a decorator *)
| NotFound
| Failed (exc : string).             (* an exception no handler catches *)
Arguments Shown {C}.
Arguments Sent {C}.
Arguments LoginRequired {C}.
Arguments NotFound {C}.
Arguments Failed {C}.

Record Reply (C : Type) := mkReply {
  page : Page C;
  queued : list Message;
  stored : DB
}.
Arguments mkReply {C}.
Arguments page {C}.
Arguments queued {C}.
Arguments stored {C}.

Definition set_users (db : DB) (l : list User.t) : DB :=
  mkDB l (publishers db) (publisher_editors db) (publisher_journalists db)
       (articles db) (newsletters db) (subscriptions db) (reset_tokens db).

Definition set_publishers (db : DB) (l : list Publisher.t) : DB :=
  mkDB (users db) l (publisher_editors db) (publisher_journalists db)
       (articles db) (newsletters db) (subscriptions db) (reset_tokens db).

Definition set_publisher_editors (db : DB) (l : list (nat * nat)) : DB :=
  mkDB (users db) (publishers db) l (publisher_journalists db)
       (articles db) (newsletters db) (subscriptions db) (reset_tokens db).

Definition set_publisher_journalists (db : DB) (l : list (nat * nat)) : DB :=
  mkDB (users db) (publishers db) (publisher_editors db) l
       (articles db) (newsletters db) (subscriptions db) (reset_tokens db).

Definition set_newsletters (db : DB) (l : list Newsletter.t) : DB :=
  mkDB (users db) (publishers db) (publisher_editors db)
       (publisher_journalists db) (articles db) l (subscriptions db)
       (reset_tokens db).

(** [order_by('-created_at')] on any table, by the function reading the
    column. SQL leaves the order among rows with equal keys to the
    database; here they keep the order of the table, and no statement
    below depends on that choice. *)
Fixpoint insert_newest {A} (key : A -> nat) (x : A) (l : list A) : list A :=
  match l with
  | [] => [x]
  | y :: ys =>
      if key y <=? key x then x :: y :: ys else y :: insert_newest key x ys
  end.

Definition newest_first {A} (key : A -> nat) (l : list A) : list A :=
  fold_right (insert_newest key) [] l.

(** [queryset.first()] of a queryset without ordering: the row with the
    smallest primary key. *)
Fixpoint first_by_pk {A} (pk_of : A -> nat) (l : list A) : option A :=
  match l with
  | [] => None
  | x :: xs =>
      match first_by_pk pk_of xs with
      | Some y => if pk_of x <=? pk_of y then Some x else Some y
      | None => Some x
      end
  end.

(** ** The publisher dashboard *)

(** [user.owned_publishers]: the publishers whose owner is the user. *)
Definition owned_publishers (db : DB) (u : User.t) : list Publisher.t :=
  filter (fun p => option_nat_eqb (Publisher.owner p) (User.pk u))
         (publishers db).

(** [publisher.journalists.filter(pk=user_pk).exists()] *)
Definition journalists_exists (db : DB) (publisher_pk user_pk : nat) : bool :=
  existsb (fun pj => (fst pj =? publisher_pk) && (snd pj =? user_pk))
          (publisher_journalists db).

Inductive TeamRole := AsEditor | AsJournalist.

(** POST data of the dashboard: whether the [add_member] button was
    sent, the username as the [CharField] cleans it ([None] when it
    rejects it) and the submitted role. *)
Record TeamPOST := mkTeamPOST {
  add_member : bool;
  team_username : option string;
  team_role : string
}.

(** [AddTeamMemberForm.is_valid()]: the role is one of the two choices. *)
Definition AddTeamMemberForm_is_valid (p : TeamPOST)
  : option (string * TeamRole) :=
  match team_username p with
  | Some username =>
      if String.eqb (team_role p) "editor" then Some (username, AsEditor)
      else if String.eqb (team_role p) "journalist"
           then Some (username, AsJournalist)
           else None
  | None => None
  end.

Record Dashboard := mkDashboard {
  dash_publisher : Publisher.t;
  dash_editors : list User.t;
  dash_journalists : list User.t;
  dash_form_bound : bool;
  dash_articles : list Article.t;
  dash_newsletters : list Newsletter.t;
  dash_article_count : nat;
  dash_subscriber_count : nat
}.

Definition dashboard_context (db : DB) (publisher : Publisher.t)
    (bound : bool) : Dashboard :=
  let p := Publisher.pk publisher in
  let of_publisher :=
    filter (fun a => option_nat_eqb (Article.publisher a) p) (articles db) in
  mkDashboard publisher
    (filter (fun u => editors_exists db p (User.pk u)) (users db))
    (filter (fun u => journalists_exists db p (User.pk u)) (users db))
    bound
    (firstn 10 (newest_first Article.created_at of_publisher))
    (firstn 5
       (order_by_created_at_desc
          (filter (fun n => option_nat_eqb (Newsletter.publisher n) p)
                  (newsletters db))))
    (List.length of_publisher)
    (List.length
       (filter (fun s => option_nat_eqb (Subscription.publisher s) p)
               (subscriptions db))).

Definition team_redirect (level : Level) (text : string) (db : DB)
  : Reply Dashboard :=
  mkReply (Sent "news:publisher_dashboard") [(level, text)] db.

(** The branch of the dashboard that adds the named user to the team. *)
Definition add_team_member (db : DB) (publisher : Publisher.t)
    (username : string) (role : TeamRole) : Reply Dashboard :=
  let p := Publisher.pk publisher in
  match objects_get (fun u => String.eqb (User.username u) username)
                    (users db) with
  | GetOne user =>
      match role with
      | AsEditor =>
          if negb (Role.eqb (User.role user) Role.editor) then
            team_redirect ERROR
              (String.append username
                 " is not an editor. They must register as an editor first.")
              db
          else if editors_exists db p (User.pk user) then
            team_redirect WARNING
              (String.append username " is already an editor.") db
          else
            team_redirect SUCCESS
              (String.append "Added "
                 (String.append username " as editor."))
              (set_publisher_editors db
                 (publisher_editors db ++ [(p, User.pk user)]))
      | AsJournalist =>
          if negb (Role.eqb (User.role user) Role.journalist) then
            team_redirect ERROR
              (String.append username
                 " is not a journalist. They must register as a journalist first.")
              db
          else if journalists_exists db p (User.pk user) then
            team_redirect WARNING
              (String.append username " is already a journalist.") db
          else
            team_redirect SUCCESS
              (String.append "Added "
                 (String.append username " as journalist."))
              (set_publisher_journalists db
                 (publisher_journalists db ++ [(p, User.pk user)]))
      end
  | DoesNotExist =>
      let quote := String (Ascii.ascii_of_nat 34) EmptyString in
      team_redirect ERROR
        (String.append "User "
           (String.append quote
              (String.append username (String.append quote " not found."))))
        db
  | GetMultiple => mkReply (Failed "MultipleObjectsReturned") [] db
  end.

Definition publisher_dashboard (db : DB) (request : Request TeamPOST)
  : Reply Dashboard :=
  match req_user request with
  | None => mkReply LoginRequired [] db
  | Some u =>
      if negb (User.is_publisher u) then
        mkReply (Sent "news:home")
          [(ERROR, "Only publishers can access this dashboard.")] db
      else
        match first_by_pk Publisher.pk (owned_publishers db u) with
        | None =>
            mkReply (Sent "news:home")
              [(WARNING,
                "You do not own a publishing house. Contact staff to get assigned.")]
              db
        | Some publisher =>
            match req_method request, add_member (req_POST request) with
            | POST, true =>
                match AddTeamMemberForm_is_valid (req_POST request) with
                | Some (username, role) =>
                    add_team_member db publisher username role
                | None =>
                    mkReply (Shown "news/publisher_dashboard.html"
                               (dashboard_context db publisher true)) [] db
                end
            | _, _ =>
                mkReply (Shown "news/publisher_dashboard.html"
                           (dashboard_context db publisher false)) [] db
            end
        end
  end.

(** Every member of a team has the role of the list they are on, as
    recorded in the user table. *)
Definition team_roles_ok (db : DB) : Prop :=
  (forall p k, In (p, k) (publisher_editors db) ->
     exists u, In u (users db) /\ User.pk u = k
               /\ User.role u = Role.editor)
  /\ (forall p k, In (p, k) (publisher_journalists db) ->
        exists u, In u (users db) /\ User.pk u = k
                  /\ User.role u = Role.journalist).

(** Pat owns the Tribune in this newsroom. *)
Definition pat : User.t :=
  User.mk 7 "pat" "pat@burst.example" Role.publisher false.

Definition owned_newsroom : DB :=
  mkDB [alice; bob; erin; eve; rita; pat]
       [Publisher.mk 1 "Tribune" (Some 7)] [(1, 3)] [(1, 1)]
       [unaffiliated; printed; sketch] [weekly; digest] [] [].

Definition add_eve : TeamPOST := mkTeamPOST true (Some "eve") "editor".

(** ** Logging in *)

(** [request.POST.get] gives [None] for a field that was not sent. *)
Record LoginPOST := mkLoginPOST {
  login_username : option string;
  login_password : option string
}.

(** The outcome of [user_login], the user of the session after it, and
    the user whose [last_login] is saved: [django.contrib.auth.login]
    writes the session and that column, neither of which the tables of
    [DB] hold, so [stored] is the tables as they were. *)
Record LoginReply := mkLoginReply {
  login_reply : Reply unit;
  session_user : option User.t;
  last_login_saved : option nat
}.

(** [user.check_password] is Django's and is a parameter of the view. *)
Definition user_login (check_password : User.t -> option string -> bool)
    (db : DB) (request : Request LoginPOST) : LoginReply :=
  let form := mkReply (Shown "news/login.html" tt) in
  match req_method request with
  | POST =>
      let username := login_username (req_POST request) in
      let password := login_password (req_POST request) in
      match objects_get
              (fun u => match username with
                        | Some name => String.eqb (User.username u) name
                        | None => false
                        end)
              (users db) with
      | GetOne user =>
          if check_password user password then
            mkLoginReply
              (mkReply (Sent "news:home")
                 [(SUCCESS,
                   String.append "Welcome back, "
                     (String.append (User.username user) "!"))] db)
              (Some user) (Some (User.pk user))
          else
            mkLoginReply (form [(ERROR, "Invalid password")] db)
              (req_user request) None
      | DoesNotExist =>
          mkLoginReply (form [(ERROR, "User does not exist")] db)
            (req_user request) None
      | GetMultiple =>
          mkLoginReply (mkReply (Failed "MultipleObjectsReturned") [] db)
            (req_user request) None
      end
  | GET => mkLoginReply (form [] db) (req_user request) None
  end.

(** ** Resetting a password *)

(** Text is held as its UTF-8 bytes; Python's [len] and slices count
    characters. A byte of the form 10xxxxxx continues a character, every
    other byte starts one. *)
Definition is_continuation (c : Ascii.ascii) : bool :=
  match c with
  | Ascii.Ascii _ _ _ _ _ _ b6 b7 => b7 && negb b6
  end.

(** [len(text)] *)
Fixpoint utf8_length (s : string) : nat :=
  match s with
  | EmptyString => 0
  | String c rest =>
      if is_continuation c then utf8_length rest else S (utf8_length rest)
  end.

(** [text[:n]] *)
Fixpoint utf8_take (n : nat) (s : string) : string :=
  match s with
  | EmptyString => EmptyString
  | String c rest =>
      if is_continuation c then String c (utf8_take n rest)
      else match n with
           | 0 => EmptyString
           | S k => String c (utf8_take k rest)
           end
  end.

(** The text begins with the first byte of a character. *)
Definition starts_character (s : string) : bool :=
  match s with
  | EmptyString => false
  | String c _ => negb (is_continuation c)
  end.

(** The two password fields as their [CharField]s clean them. *)
Record ResetPOST := mkResetPOST {
  new_password1 : string;
  new_password2 : string
}.

(** [ResetPasswordForm.is_valid()], with the cleaned [new_password1]:
    the first field is required with [min_length=8], the second is
    required, and [clean] wants the two to be equal. *)
Definition ResetPasswordForm_is_valid (p : ResetPOST) : option string :=
  let password1 :=
    if 8 <=? utf8_length (new_password1 p)
    then Some (new_password1 p) else None in
  let password2 :=
    if String.eqb (new_password2 p) EmptyString
    then None else Some (new_password2 p) in
  match password1, password2 with
  | Some a, Some b => if String.eqb a b then Some a else None
  | _, _ => None
  end.

(** [reset_token.is_used = True; reset_token.save()] *)
Definition mark_used (t : PasswordResetToken.t) : PasswordResetToken.t :=
  PasswordResetToken.mk (PasswordResetToken.user t)
    (PasswordResetToken.token t) (PasswordResetToken.created_at t) true.

(** The outcome of [reset_password] and the password it sets, as the user
    and the new password. *)
Record ResetReply := mkResetReply {
  reset_reply : Reply (bool * string);
  password_set : option (nat * string)
}.

(** [PasswordResetToken.is_valid] is declared in the absent [models.py]
    and is a parameter of the view. *)
Definition reset_password (is_valid : PasswordResetToken.t -> bool)
    (db : DB) (request : Request ResetPOST) (token : string) : ResetReply :=
  match objects_get (fun t => String.eqb (PasswordResetToken.token t) token)
                    (reset_tokens db) with
  | GetOne reset_token =>
      if negb (is_valid reset_token) then
        mkResetReply
          (mkReply (Sent "news:forgot_password")
             [(ERROR, "Invalid or expired reset token.")] db)
          None
      else
        match req_method request with
        | POST =>
            match ResetPasswordForm_is_valid (req_POST request) with
            | Some new_password =>
                mkResetReply
                  (mkReply (Sent "news:login")
                     [(SUCCESS, "Password reset successfully. Please log in.")]
                     (set_reset_tokens db
                        (map (fun t =>
                                if String.eqb (PasswordResetToken.token t)
                                              token
                                then mark_used t else t)
                             (reset_tokens db))))
                  (Some (PasswordResetToken.user reset_token, new_password))
            | None =>
                mkResetReply
                  (mkReply (Shown "news/reset_password.html" (true, token))
                     [] db)
                  None
            end
        | GET =>
            mkResetReply
              (mkReply (Shown "news/reset_password.html" (false, token)) [] db)
              None
        end
  | DoesNotExist =>
      mkResetReply
        (mkReply (Sent "news:forgot_password")
           [(ERROR, "Invalid reset token.")] db)
        None
  | GetMultiple =>
      mkResetReply (mkReply (Failed "MultipleObjectsReturned") [] db) None
  end.

(** A token is good until it is used. *)
Definition unused (t : PasswordResetToken.t) : bool :=
  negb (PasswordResetToken.is_used t).

(** ** The feed and the sitemap ([news/feeds.py], [news/sitemaps.py]) *)

Definition published_articles (db : DB) : list Article.t :=
  filter (fun a => Status.eqb (Article.status a) Status.published)
         (articles db).

(** [BurstArticleFeed.items] *)
Definition BurstArticleFeed_items (db : DB) : list Article.t :=
  firstn 50 (newest_first Article.created_at (published_articles db)).

(** [ArticleSitemap.items] *)
Definition ArticleSitemap_items (db : DB) : list Article.t :=
  newest_first Article.created_at (published_articles db).

(** [BurstArticleFeed.item_description]; [strip_tags] is Django's. *)
Definition item_description (strip_tags : string -> string)
    (item : Article.t) : string :=
  if negb (String.eqb (Article.summary item) EmptyString) then
    Article.summary item
  else
    let text := strip_tags (Article.content item) in
    if 500 <? utf8_length text
    then String.append (utf8_take 500 text) "..."
    else text.

(** Most recent first, by [created_at]. *)
Definition newer_article (a b : Article.t) : Prop :=
  Article.created_at b <= Article.created_at a.

(** The newsletter is by the target of a subscription. *)
Definition by_target (t : Target) (n : Newsletter.t) : Prop :=
  match t with
  | ToPublisher p => Newsletter.publisher n = Some p
  | ToJournalist j => Newsletter.author n = j
  end.

(** A password check that accepts the user name as the password. *)
Definition name_is_password (u : User.t) (password : option string) : bool :=
  match password with
  | Some p => String.eqb p (User.username u)
  | None => false
  end.

Definition one_token : DB :=
  set_reset_tokens newsroom [PasswordResetToken.mk 1 "tok" 7 false].

(** ** Registration *)

(** What the fields of the registration form other than the publisher
    choice and the publisher name clean to. *)
Record RegisterFields := mkRegisterFields {
  reg_username : string;
  reg_email : string;
  reg_role : Role.t
}.

(** POST data bound to a [UserRegistrationForm]: [reg_fields] is [None]
    when Django rejects one of the fields it covers; [reg_publisher] is the
    key chosen in the publisher select; [reg_publisher_name] is the name
    field as its [CharField] cleans it, already stripped ([None] when it is
    rejected). *)
Record RegisterPOST := mkRegisterPOST {
  reg_fields : option RegisterFields;
  reg_publisher : option nat;
  reg_publisher_name : option string
}.

(** [UserRegistrationForm.is_valid()], with the cleaned fields, publisher
    and publisher name; [iexact] is the case-insensitive comparison of the
    database. *)
Definition UserRegistrationForm_is_valid (iexact : string -> string -> bool)
    (db : DB) (p : RegisterPOST)
  : option (RegisterFields * option Publisher.t * string) :=
  match reg_fields p,
        clean_choice Publisher.pk (publishers db) (reg_publisher p),
        reg_publisher_name p with
  | Some f, Some publisher, Some publisher_name =>
      (* clean() *)
      match reg_role f with
      | Role.editor =>
          match publisher with
          | Some _ => Some (f, publisher, publisher_name)
          | None => None
          end
      | Role.publisher =>
          if String.eqb publisher_name EmptyString then None
          else if existsb (fun q => iexact (Publisher.name q) publisher_name)
                          (publishers db)
               then None
               else Some (f, publisher, publisher_name)
      | _ => Some (f, publisher, publisher_name)
      end
  | _, _, _ => None
  end.

(** The outcome of [register] and the user it logs in. *)
Record RegisterReply := mkRegisterReply {
  register_reply : Reply bool;
  registered : option User.t
}.

Definition register (iexact : string -> string -> bool) (db : DB)
    (request : Request RegisterPOST) : RegisterReply :=
  match req_method request with
  | POST =>
      match UserRegistrationForm_is_valid iexact db (req_POST request) with
      | Some (f, publisher, publisher_name) =>
          let user := User.mk (next_pk User.pk (users db)) (reg_username f)
                        (reg_email f) (reg_role f) false in
          let saved := set_users db (users db ++ [user]) in
          let quote := String (Ascii.ascii_of_nat 34) EmptyString in
          let done text db' :=
            mkRegisterReply (mkReply (Sent "news:home") [(SUCCESS, text)] db')
                            (Some user) in
          match reg_role f, publisher with
          | Role.publisher, _ =>
              let pub := Publisher.mk (next_pk Publisher.pk (publishers db))
                           publisher_name (Some (User.pk user)) in
              done (String.append "Account and publishing house "
                      (String.append quote
                         (String.append publisher_name
                            (String.append quote " created."))))
                   (set_publishers saved (publishers db ++ [pub]))
          | Role.editor, Some publisher =>
              done (String.append "Account created. You are now an editor at "
                      (String.append (Publisher.name publisher) "."))
                   (set_publisher_editors saved
                      (publisher_editors db
                       ++ [(Publisher.pk publisher, User.pk user)]))
          | Role.journalist, Some publisher =>
              done (String.append
                      "Account created. You are now a journalist at "
                      (String.append (Publisher.name publisher) "."))
                   (set_publisher_journalists saved
                      (publisher_journalists db
                       ++ [(Publisher.pk publisher, User.pk user)]))
          | _, _ =>
              done (String.append "Account created successfully for "
                      (String.append (reg_username f) "."))
                   saved
          end
      | None =>
          mkRegisterReply (mkReply (Shown "news/register.html" true) [] db)
                          None
      end
  | GET =>
      mkRegisterReply (mkReply (Shown "news/register.html" false) [] db) None
  end.

(** ** Searching *)



(** A comparison and a containment to run the views with. *)
Definition same_text (a b : string) : bool := String.eqb a b.

Definition new_house : RegisterPOST :=
  mkRegisterPOST
    (Some (mkRegisterFields "quinn" "quinn@burst.example" Role.publisher))
    None (Some "Gazette").

Definition new_editor : RegisterPOST :=
  mkRegisterPOST
    (Some (mkRegisterFields "ed" "ed@burst.example" Role.editor))
    (Some 1) (Some EmptyString).


(** ** Further sample data *)

(** The request names both targets or neither of them. *)
Definition both_or_neither (q : SubscriptionPOST) : bool :=
  match post_publisher q, post_journalist q with
  | Some _, Some _ | None, None => true
  | _, _ => false
  end.

(** Every target the request names is a choice the form offers. *)
Definition offered (db : DB) (q : SubscriptionPOST) : bool :=
  match post_publisher q with
  | Some p => valid_target db (ToPublisher p)
  | None => true
  end
  && match post_journalist q with
     | Some j => valid_target db (ToJournalist j)
     | None => true
     end.

Fixpoint repeat_string (n : nat) (s : string) : string :=
  match n with
  | 0 => EmptyString
  | S k => String.append s (repeat_string k s)
  end.

(** The letter e with an acute accent: one character, the two bytes C3 A9. *)
Definition e_acute : string :=
  String (Ascii.ascii_of_nat 195) (String (Ascii.ascii_of_nat 169) EmptyString).

(** Two published articles without a summary: one of 501 accented
    letters, one of 300. *)
Definition long_read : Article.t :=
  Article.mk 4 "Long read" (repeat_string 501 e_acute) EmptyString 1 (Some 1)
             None Status.published true (Some 3) (Some 21) 13.

Definition accented : Article.t :=
  Article.mk 5 "Accents" (repeat_string 300 e_acute) EmptyString 1 (Some 1)
             None Status.published true (Some 3) (Some 22) 14.

(** [strip_tags] on a text without tags. *)
Definition no_tags (s : string) : string := s.

(** A second publishing house beside the Tribune, and the registration of
    an editor who chooses it. *)
Definition herald : Publisher.t := Publisher.mk 2 "Herald" None.

Definition two_houses : DB := set_publishers newsroom [tribune; herald].

Definition herald_editor : RegisterPOST :=
  mkRegisterPOST
    (Some (mkRegisterFields "ed" "ed@burst.example" Role.editor))
    (Some 2) (Some EmptyString).

(** * Properties *)

Lemma Role_eqb_eq a b : Role.eqb a b = true <-> a = b.
Proof. destruct a, b; simpl; split; congruence. Qed.

Lemma Status_eqb_eq a b : Status.eqb a b = true <-> a = b.
Proof. destruct a, b; simpl; split; congruence. Qed.

Lemma Status_eqb_neq a b : Status.eqb a b = false <-> a <> b.
Proof. destruct a, b; simpl; split; congruence. Qed.

Section Tables.
Context {A : Type} (pk_of : A -> nat).

Lemma get_by_pk_some table k r :
  get_by_pk pk_of table k = Some r -> pk_of r = k /\ In r table.
Proof.
  unfold get_by_pk. intros H. apply find_some in H as [Hin Hk].
  apply Nat.eqb_eq in Hk. auto.
Qed.

Lemma get_by_pk_app table extra k r :
  get_by_pk pk_of table k = Some r ->
  get_by_pk pk_of (table ++ extra) k = Some r.
Proof.
  unfold get_by_pk. induction table as [|x xs IH]; simpl; [discriminate|].
  destruct (pk_of x =? k); auto.
Qed.

Lemma get_by_pk_save_row_same table row r :
  get_by_pk pk_of table (pk_of row) = Some r ->
  get_by_pk pk_of (save_row pk_of table row) (pk_of row) = Some row.
Proof.
  unfold get_by_pk, save_row.
  induction table as [|x xs IH]; simpl; [discriminate|].
  destruct (pk_of x =? pk_of row) eqn:E; simpl.
  - now rewrite Nat.eqb_refl.
  - rewrite E. auto.
Qed.

Lemma get_by_pk_save_row_other table row k :
  pk_of row <> k ->
  get_by_pk pk_of (save_row pk_of table row) k = get_by_pk pk_of table k.
Proof.
  unfold get_by_pk, save_row. intros Hk.
  induction table as [|x xs IH]; simpl; [reflexivity|].
  destruct (pk_of x =? pk_of row) eqn:E; simpl.
  - apply Nat.eqb_eq in E.
    apply Nat.eqb_neq in Hk as Hk'. rewrite Hk'.
    rewrite E, Hk'. exact IH.
  - destruct (pk_of x =? k); auto.
Qed.
End Tables.

(** Case analysis on every test a view makes. *)
Ltac destruct_tests :=
  repeat match goal with
         | |- context [match ?x with _ => _ end] => destruct x
         end.


(** Saving an article under its own key makes its status the stored one. *)
Lemma status_of_save db a old :
  get_by_pk Article.pk (articles db) (Article.pk a) = Some old ->
  status_of (set_articles db (save_row Article.pk (articles db) a))
            (Article.pk a)
  = Some (Article.status a).
Proof.
  intros H. unfold status_of. simpl.
  now rewrite (get_by_pk_save_row_same Article.pk _ _ _ H).
Qed.


(** ** Approval *)







(** ** Editing *)

(** C2 (as amended). [edit_article] lets a logged-in requester through
    exactly when they are the article's author or have the editor role,
    whichever publisher they edit for; anyone else is sent back with an
    error and the database is untouched. An edit never changes the
    status. *)
Theorem edit_article_allowed_iff db request pk article u :
  req_user request = Some u ->
  get_by_pk Article.pk (articles db) pk = Some article ->
  let o := edit_article db request pk in
  (denied o = false
   <-> User.pk u = Article.author article \/ User.is_editor u = true)
  /\ (denied o = true ->
      response o = Redirect "news:article_list" /\ db_after o = db)
  /\ status_of (db_after o) pk = status_of db pk.
Proof.
  intros Hu Ha o. subst o. unfold edit_article. rewrite Hu, Ha.
  destruct (get_by_pk_some _ _ _ _ Ha) as [Hk _]. subst pk.
  assert (Hkeep : forall f,
    status_of (set_articles db (save_row Article.pk (articles db)
                                  (ArticleForm_apply article f)))
              (Article.pk article)
    = status_of db (Article.pk article)).
  { intros f.
    pose proof (status_of_save db (ArticleForm_apply article f) article Ha)
      as Hsave.
    simpl in Hsave. rewrite Hsave.
    unfold status_of. now rewrite Ha. }
  destruct (User.pk u =? Article.author article) eqn:Eauth;
    destruct (User.is_editor u) eqn:Eed; simpl.
  4:{ apply Nat.eqb_neq in Eauth. unfold denied; simpl.
      split; [split; [discriminate | intros [H|H]; [contradiction | discriminate]] | auto]. }
  all: destruct (req_method request); simpl;
    [| destruct (ArticleForm_is_valid (req_POST request)) as [f|]; simpl ].
  all: unfold denied; simpl.
  all: (split; [split; [intros _ | reflexivity] | split; [discriminate | auto]]).
  all: try (apply Nat.eqb_eq in Eauth); auto.
Qed.

Lemma edit_article_allowed_iff_witness :
  let o := edit_article newsroom (mkRequest (Some eve) POST rewrite_fields) 2 in
  (denied o = false
   <-> User.pk eve = Article.author printed \/ User.is_editor eve = true)
  /\ (denied o = true ->
      response o = Redirect "news:article_list" /\ db_after o = newsroom)
  /\ status_of (db_after o) 2 = status_of newsroom 2.
Proof.
  exact (edit_article_allowed_iff newsroom
           (mkRequest (Some eve) POST rewrite_fields) 2 printed eve
           eq_refl eq_refl).
Defined.

(** C2 fails as stated: Eve is neither the author of the Tribune's
    article nor one of the Tribune's editors, yet her edit is accepted and
    stored. *)
Lemma edit_article_allowed_iff_cex :
  let o := edit_article newsroom (mkRequest (Some eve) POST rewrite_fields) 2 in
  (User.pk eve =? Article.author printed) = false
  /\ isEditorOf newsroom eve (Article.publisher printed) = false
  /\ denied o = false
  /\ messages o = [(SUCCESS, "Article updated successfully")]
  /\ option_map Article.title
       (get_by_pk Article.pk (articles (db_after o)) 2) = Some "Budget 2".
Proof. vm_compute. repeat split. Qed.

(** ** Viewing articles *)

Lemma in_firstn {A} n (l : list A) x : In x (firstn n l) -> In x l.
Proof.
  intros H. rewrite <- (firstn_skipn n l). apply in_or_app. now left.
Qed.

Lemma in_skipn {A} n (l : list A) x : In x (skipn n l) -> In x l.
Proof.
  intros H. rewrite <- (firstn_skipn n l). apply in_or_app. now right.
Qed.

Lemma in_get_page {A} (l : list A) per_page number x :
  In x (get_page l per_page number) -> In x l.
Proof.
  unfold get_page. intros H. apply in_firstn in H. now apply in_skipn in H.
Qed.

(** Every page of a reader's article list holds published articles only. *)
Lemma article_list_reader_published db u page :
  User.is_reader u = true ->
  Forall (fun a => Article.status a = Status.published)
         (get_page (article_list_queryset db u) 10 page).
Proof.
  intros Hr. apply Forall_forall. intros a Hin.
  apply in_get_page in Hin. unfold article_list_queryset in Hin.
  rewrite Hr in Hin. apply filter_In in Hin as [_ Hs].
  now apply Status_eqb_eq.
Qed.

(** C5 (as amended). For a logged-in requester and an article that is not
    published, [article_detail] shows the article exactly when the
    requester is not a reader, and refuses exactly the readers; authorship,
    editor membership and the staff flag play no part. The database is
    never changed, and a reader's article list holds published articles
    only. *)
Theorem article_detail_unpublished db request pk article u :
  req_user request = Some u ->
  get_by_pk Article.pk (articles db) pk = Some article ->
  Article.status article <> Status.published ->
  let o := article_detail db request pk in
  (response o = Render "news/article_detail.html" (CtxArticle article)
   <-> User.is_reader u = false)
  /\ (denied o = true <-> User.is_reader u = true)
  /\ db_after o = db
  /\ (User.is_reader u = true ->
      forall page,
        Forall (fun a => Article.status a = Status.published)
               (get_page (article_list_queryset db u) 10 page)).
Proof.
  intros Hu Ha Hs o. subst o. unfold article_detail. rewrite Hu, Ha.
  apply Status_eqb_neq in Hs. rewrite Hs.
  split; [|split; [|split]].
  - destruct (User.is_reader u); simpl; split; congruence.
  - destruct (User.is_reader u); unfold denied; simpl; split; congruence.
  - destruct (User.is_reader u); reflexivity.
  - intros Hr page. now apply article_list_reader_published.
Qed.

Lemma article_detail_unpublished_witness :
  let o := article_detail newsroom (mkRequest (Some bob) GET tt) 3 in
  (response o = Render "news/article_detail.html" (CtxArticle sketch)
   <-> User.is_reader bob = false)
  /\ (denied o = true <-> User.is_reader bob = true)
  /\ db_after o = newsroom
  /\ (User.is_reader bob = true ->
      forall page,
        Forall (fun a => Article.status a = Status.published)
               (get_page (article_list_queryset newsroom bob) 10 page)).
Proof.
  apply (article_detail_unpublished newsroom (mkRequest (Some bob) GET tt) 3
           sketch bob); [reflexivity | reflexivity | discriminate].
Defined.

(** C5 fails as stated: Bob is a journalist, but not the author of
    Alice's draft, not an editor of its publisher and not staff; the
    detail view shows him the draft all the same. *)
Lemma article_detail_unpublished_cex :
  let o := article_detail newsroom (mkRequest (Some bob) GET tt) 3 in
  status_of newsroom 3 = Some Status.draft
  /\ (User.pk bob =? Article.author sketch) = false
  /\ isEditorOf newsroom bob (Article.publisher sketch) = false
  /\ User.is_staff bob = false
  /\ denied o = false
  /\ response o = Render "news/article_detail.html" (CtxArticle sketch).
Proof. vm_compute. repeat split. Qed.

(** ** The status of an article over a sequence of requests *)









(** ** Subscribing *)

Lemma SubscriptionForm_is_valid_neither db :
  SubscriptionForm_is_valid db (mkSubscriptionPOST None None)
  = inl ["You must subscribe to either a publisher or a journalist.";
         "AmbiguousTarget"].
Proof. reflexivity. Qed.

Lemma SubscriptionForm_is_valid_publisher db p pr :
  get_by_pk Publisher.pk (publishers db) p = Some pr ->
  SubscriptionForm_is_valid db (mkSubscriptionPOST (Some p) None)
  = inr (Some pr, None).
Proof.
  intros Hp. unfold SubscriptionForm_is_valid, clean_choice. simpl.
  now rewrite Hp.
Qed.

Lemma SubscriptionForm_is_valid_journalist db j jr :
  get_by_pk User.pk (filter User.is_journalist (users db)) j = Some jr ->
  SubscriptionForm_is_valid db (mkSubscriptionPOST None (Some j))
  = inr (None, Some jr).
Proof.
  intros Hj. unfold SubscriptionForm_is_valid, clean_choice. simpl.
  now rewrite Hj.
Qed.

Lemma SubscriptionForm_is_valid_both db p pr j jr :
  get_by_pk Publisher.pk (publishers db) p = Some pr ->
  get_by_pk User.pk (filter User.is_journalist (users db)) j = Some jr ->
  SubscriptionForm_is_valid db (mkSubscriptionPOST (Some p) (Some j))
  = inl ["AmbiguousTarget"].
Proof.
  intros Hp Hj. unfold SubscriptionForm_is_valid, clean_choice. simpl.
  now rewrite Hp, Hj.
Qed.

Lemma SubscriptionForm_is_valid_both_or_neither db q :
  both_or_neither q = true ->
  exists errors,
    SubscriptionForm_is_valid db q = inl errors
    /\ errors <> []
    /\ (offered db q = true -> In "AmbiguousTarget" errors).
Proof.
  destruct q as [[p|] [j|]]; try discriminate; intros _;
    unfold SubscriptionForm_is_valid, offered, clean_choice;
    cbn [post_publisher post_journalist valid_target].
  - destruct (get_by_pk Publisher.pk (publishers db) p) as [pr|];
      destruct (get_by_pk User.pk (filter User.is_journalist (users db)) j)
        as [jr|]; simpl; eexists;
      (split; [reflexivity|]); (split; [discriminate|]);
      intros H; try discriminate H. now left.
  - simpl. eexists. split; [reflexivity|]. split; [discriminate|].
    intros _. right. now left.
Qed.

(** C6. A reader's subscribe request that names both a publisher and a
    journalist, or names neither, fails: the form is invalid, the page
    comes back with the errors and without a message of success, and no
    subscription is created, the database being left as it is. The error
    [AmbiguousTarget] is among the errors whenever what the request names
    are choices the form offers. *)
Theorem subscribe_ambiguous_target db u q :
  User.is_reader u = true ->
  both_or_neither q = true ->
  let o := subscription_management db (mkRequest (Some u) POST q) in
  exists errors,
    SubscriptionForm_is_valid db q = inl errors
    /\ errors <> []
    /\ (offered db q = true -> In "AmbiguousTarget" errors)
    /\ response o
       = Render "news/subscription_management.html"
           (CtxSubscriptions errors (subscriptions_of db u))
    /\ messages o = []
    /\ db_after o = db.
Proof.
  intros Hr Hq o. subst o. unfold subscription_management.
  cbn [req_user req_method req_POST]. rewrite Hr. cbn [negb].
  destruct (SubscriptionForm_is_valid_both_or_neither db q Hq)
    as (errors & Hform & Hne & Hamb).
  rewrite Hform. exists errors. repeat split; assumption.
Qed.

(** Rita asks for the Tribune and for Alice at once. *)
Lemma subscribe_ambiguous_target_witness :
  let o := subscription_management newsroom
             (mkRequest (Some rita) POST both_targets) in
  SubscriptionForm_is_valid newsroom both_targets = inl ["AmbiguousTarget"]
  /\ In "AmbiguousTarget" ["AmbiguousTarget"]
  /\ response o
     = Render "news/subscription_management.html"
         (CtxSubscriptions ["AmbiguousTarget"] (subscriptions_of newsroom rita))
  /\ messages o = []
  /\ db_after o = newsroom.
Proof.
  destruct (subscribe_ambiguous_target newsroom rita both_targets
              eq_refl eq_refl)
    as (errors & Hform & _ & Hamb & Hpage & Hmsg & Hdb).
  injection Hform as <-.
  exact (conj eq_refl (conj (Hamb eq_refl) (conj Hpage (conj Hmsg Hdb)))).
Defined.

(** Naming nothing fails in the same way, with the form's own message
    first. *)
Example subscribe_nothing :
  let o := subscription_management newsroom
             (mkRequest (Some rita) POST (mkSubscriptionPOST None None)) in
  response o
  = Render "news/subscription_management.html"
      (CtxSubscriptions
         ["You must subscribe to either a publisher or a journalist.";
          "AmbiguousTarget"] [])
  /\ db_after o = newsroom.
Proof. vm_compute. split; reflexivity. Qed.

Lemma filter_app_one {A} (f : A -> bool) l x :
  f x = true -> filter f (l ++ [x]) = filter f l ++ [x].
Proof.
  intros Hx. induction l as [|y ys IH]; simpl.
  - now rewrite Hx.
  - rewrite IH. now destruct (f y).
Qed.

(** [get_or_create] on a table that holds the key at most once: it never
    raises, and asking again finds the row of the first call. *)
Lemma get_or_create_again {A} (pk_of : A -> nat) lookup new (table : list A) :
  (forall k, lookup (new k) = true) ->
  List.length (filter lookup table) <= 1 ->
  match get_or_create pk_of lookup new table with
  | Created row table' =>
      filter lookup table = [] /\ table' = table ++ [row]
      /\ filter lookup table' = [row]
  | Got row => filter lookup table = [row]
  | MultipleObjectsReturned => False
  end.
Proof.
  intros Hnew Hlen. unfold get_or_create.
  destruct (filter lookup table) as [|r [|r' rest]] eqn:E; simpl in *.
  - repeat split. rewrite filter_app_one by apply Hnew. now rewrite E.
  - reflexivity.
  - lia.
Qed.

Lemma lookup_publisher_new u p k :
  lookup_publisher u p (Subscription.mk k u (Some p) None) = true.
Proof. unfold lookup_publisher. simpl. now rewrite !Nat.eqb_refl. Qed.

Lemma lookup_journalist_new u j k :
  lookup_journalist u j (Subscription.mk k u None (Some j)) = true.
Proof. unfold lookup_journalist. simpl. now rewrite !Nat.eqb_refl. Qed.

Lemma has_key_lookup reader t s : has_key reader t s = key_lookup reader t s.
Proof.
  unfold has_key, key_lookup, lookup_publisher, lookup_journalist,
    option_nat_eqb.
  destruct t, (Subscription.publisher s), (Subscription.journalist s);
    reflexivity.
Qed.

Lemma filter_has_key reader t l :
  filter (has_key reader t) l = filter (key_lookup reader t) l.
Proof. apply filter_ext. intros s. apply has_key_lookup. Qed.

(** C7. A reader who subscribes twice to the same valid single target, in
    a database that holds that (reader, target) key at most once, ends with
    exactly one stored subscription that is the reader's and references
    the target; the second request changes nothing and answers, instead of
    an error, with the warning that the reader is already subscribed to
    the target, by its name. *)
Theorem subscribe_twice_one_row db u t :
  User.is_reader u = true ->
  valid_target db t = true ->
  List.length (filter (has_key (User.pk u) t) (subscriptions db)) <= 1 ->
  let first := subscribe db u t in
  let second := subscribe (db_after first) u t in
  (exists row,
     filter (has_key (User.pk u) t) (subscriptions (db_after second)) = [row])
  /\ db_after second = db_after first
  /\ response second = Redirect "news:subscription_management"
  /\ exists name,
       target_name db t = Some name
       /\ messages second
          = [(WARNING, String.append "You are already subscribed to " name)].
Proof.
  intros Hr Hv Hlen first second. subst first second.
  rewrite filter_has_key in Hlen.
  unfold subscribe, subscription_management.
  cbn [req_user req_method req_POST]. rewrite Hr. cbn [negb].
  destruct t as [p | j]; cbn [target_POST valid_target key_lookup target_name]
    in *.
  - destruct (get_by_pk Publisher.pk (publishers db) p) as [pr|] eqn:Hp;
      [|discriminate].
    destruct (get_by_pk_some _ _ _ _ Hp) as [Hk _]. subst p.
    rewrite (SubscriptionForm_is_valid_publisher db _ pr Hp).
    pose proof (get_or_create_again Subscription.pk
                  (lookup_publisher (User.pk u) (Publisher.pk pr))
                  (fun k => Subscription.mk k (User.pk u)
                              (Some (Publisher.pk pr)) None)
                  (subscriptions db)
                  (lookup_publisher_new _ _) Hlen) as Hgc.
    destruct (get_or_create _ _ _ (subscriptions db)) as [row|row table'|];
      [| |contradiction]; cbn [db_after].
    + rewrite (SubscriptionForm_is_valid_publisher db _ pr Hp).
      unfold get_or_create. rewrite Hgc. cbn [db_after response messages].
      rewrite filter_has_key. cbn [key_lookup]. rewrite Hgc.
      split; [now exists row|]. split; [reflexivity|].
      split; [reflexivity|]. exists (Publisher.name pr). split; reflexivity.
    + destruct Hgc as (Hnone & -> & Hone).
      rewrite (SubscriptionForm_is_valid_publisher
                 (set_subscriptions db (subscriptions db ++ [row])) _ pr Hp).
      unfold get_or_create. cbn [subscriptions set_subscriptions].
      rewrite Hone. cbn [db_after response messages].
      rewrite filter_has_key. cbn [key_lookup subscriptions set_subscriptions].
      rewrite Hone. split; [now exists row|]. split; [reflexivity|].
      split; [reflexivity|]. exists (Publisher.name pr). split; reflexivity.
  - destruct (get_by_pk User.pk (filter User.is_journalist (users db)) j)
      as [jr|] eqn:Hj; [|discriminate].
    destruct (get_by_pk_some _ _ _ _ Hj) as [Hk _]. subst j.
    rewrite (SubscriptionForm_is_valid_journalist db _ jr Hj).
    pose proof (get_or_create_again Subscription.pk
                  (lookup_journalist (User.pk u) (User.pk jr))
                  (fun k => Subscription.mk k (User.pk u) None
                              (Some (User.pk jr)))
                  (subscriptions db)
                  (lookup_journalist_new _ _) Hlen) as Hgc.
    destruct (get_or_create _ _ _ (subscriptions db)) as [row|row table'|];
      [| |contradiction]; cbn [db_after].
    + rewrite (SubscriptionForm_is_valid_journalist db _ jr Hj).
      unfold get_or_create. rewrite Hgc. cbn [db_after response messages].
      rewrite filter_has_key. cbn [key_lookup]. rewrite Hgc.
      split; [now exists row|]. split; [reflexivity|].
      split; [reflexivity|]. exists (User.username jr). split; reflexivity.
    + destruct Hgc as (Hnone & -> & Hone).
      rewrite (SubscriptionForm_is_valid_journalist
                 (set_subscriptions db (subscriptions db ++ [row])) _ jr Hj).
      unfold get_or_create. cbn [subscriptions set_subscriptions].
      rewrite Hone. cbn [db_after response messages].
      rewrite filter_has_key. cbn [key_lookup subscriptions set_subscriptions].
      rewrite Hone. split; [now exists row|]. split; [reflexivity|].
      split; [reflexivity|]. exists (User.username jr). split; reflexivity.
Qed.

(** Rita follows the Tribune already; Rob subscribes to it twice and ends
    with one subscription of his own. *)
Lemma subscribe_twice_one_row_witness :
  let first := subscribe newsroom_subscribed rob (ToPublisher 1) in
  let second := subscribe (db_after first) rob (ToPublisher 1) in
  (exists row,
     filter (has_key 6 (ToPublisher 1)) (subscriptions (db_after second))
     = [row])
  /\ db_after second = db_after first
  /\ response second = Redirect "news:subscription_management"
  /\ exists name,
       target_name newsroom_subscribed (ToPublisher 1) = Some name
       /\ messages second
          = [(WARNING, String.append "You are already subscribed to " name)].
Proof.
  apply (subscribe_twice_one_row newsroom_subscribed rob (ToPublisher 1));
    [reflexivity | reflexivity | simpl; lia].
Defined.

(** What Rob ends with: his own row beside Rita's two. *)
Example subscribe_twice_rob :
  let first := subscribe newsroom_subscribed rob (ToPublisher 1) in
  let second := subscribe (db_after first) rob (ToPublisher 1) in
  messages first = [(SUCCESS, "Successfully subscribed to Tribune")]
  /\ messages second = [(WARNING, "You are already subscribed to Tribune")]
  /\ subscriptions (db_after second)
     = [Subscription.mk 1 5 (Some 1) None; Subscription.mk 2 5 None (Some 2);
        Subscription.mk 3 6 (Some 1) None].
Proof. vm_compute. repeat split. Qed.

(** *** The uniqueness key is an invariant of the views *)

Lemma unique_keys_empty : unique_keys empty_db.
Proof. intros reader t. unfold key_rows. simpl. lia. Qed.

Lemma unique_keys_add db row :
  unique_keys db ->
  (forall reader t,
     key_lookup reader t row = true -> key_rows db reader t = []) ->
  unique_keys (set_subscriptions db (subscriptions db ++ [row])).
Proof.
  intros Hu Hfresh reader t. unfold key_rows. simpl.
  rewrite filter_app, length_app. simpl.
  destruct (key_lookup reader t row) eqn:E; simpl.
  - apply Hfresh in E. unfold key_rows in E. rewrite E. simpl. lia.
  - specialize (Hu reader t). unfold key_rows in Hu. lia.
Qed.

Lemma filter_filter_length {A} (f g : A -> bool) l :
  List.length (filter f (filter g l)) <= List.length (filter f l).
Proof.
  induction l as [|x xs IH]; simpl; [lia|].
  destruct (g x); simpl; destruct (f x); simpl; lia.
Qed.

Lemma lookup_publisher_inv u p k reader t :
  key_lookup reader t (Subscription.mk k u (Some p) None) = true ->
  reader = u /\ t = ToPublisher p.
Proof.
  destruct t as [p'|j']; unfold key_lookup, lookup_publisher,
    lookup_journalist; simpl; intros H;
    apply andb_prop in H as [H1 H2]; [|discriminate].
  apply Nat.eqb_eq in H1, H2. now subst.
Qed.

Lemma lookup_journalist_inv u j k reader t :
  key_lookup reader t (Subscription.mk k u None (Some j)) = true ->
  reader = u /\ t = ToJournalist j.
Proof.
  destruct t as [p'|j']; unfold key_lookup, lookup_publisher,
    lookup_journalist; simpl; intros H;
    apply andb_prop in H as [H1 H2]; [discriminate|].
  apply Nat.eqb_eq in H1, H2. now subst.
Qed.

Lemma subscription_management_unique_keys db r :
  unique_keys db -> unique_keys (db_after (subscription_management db r)).
Proof.
  intros Hu. unfold subscription_management.
  destruct (req_user r) as [u|]; [|exact Hu].
  destruct (negb (User.is_reader u)); [exact Hu|].
  destruct (req_method r); [exact Hu|].
  destruct (SubscriptionForm_is_valid db (req_POST r))
    as [errors|[[pr|] [jr|]]]; try exact Hu.
  - unfold get_or_create.
    destruct (filter _ (subscriptions db)) as [|x [|y ys]] eqn:E;
      try exact Hu.
    simpl. apply unique_keys_add; [exact Hu|].
    intros reader t Hk. apply lookup_publisher_inv in Hk as [-> ->].
    exact E.
  - unfold get_or_create.
    destruct (filter _ (subscriptions db)) as [|x [|y ys]] eqn:E;
      try exact Hu.
    simpl. apply unique_keys_add; [exact Hu|].
    intros reader t Hk. apply lookup_publisher_inv in Hk as [-> ->].
    exact E.
  - unfold get_or_create.
    destruct (filter _ (subscriptions db)) as [|x [|y ys]] eqn:E;
      try exact Hu.
    simpl. apply unique_keys_add; [exact Hu|].
    intros reader t Hk. apply lookup_journalist_inv in Hk as [-> ->].
    exact E.
Qed.

Lemma delete_subscription_unique_keys db r pk :
  unique_keys db -> unique_keys (db_after (delete_subscription db r pk)).
Proof.
  intros Hu. unfold delete_subscription.
  destruct (req_user r) as [u|]; [|exact Hu].
  destruct (find _ (subscriptions db)) as [sub|]; [|exact Hu].
  destruct (req_method r); [exact Hu|].
  intros reader t. unfold key_rows. simpl.
  eapply Nat.le_trans; [apply filter_filter_length | apply Hu].
Qed.

(** Served from a database without duplicate keys, no sequence of requests
    creates one; in particular none does from the empty database. *)
Lemma run_unique_keys db ops : unique_keys db -> unique_keys (run db ops).
Proof.
  unfold run. revert db.
  induction ops as [|op ops IH]; intros db Hu; simpl; [exact Hu|].
  apply IH. destruct op; simpl.
  - unfold article_list. destruct (req_user r); exact Hu.
  - unfold article_detail.
    destruct_tests; exact Hu.
  - unfold create_article.
    destruct_tests; exact Hu.
  - unfold edit_article.
    destruct_tests; exact Hu.
  - unfold approve_article.
    destruct_tests; exact Hu.
  - now apply subscription_management_unique_keys.
  - now apply delete_subscription_unique_keys.
  - exact Hu.
  - unfold newsletter_detail.
    destruct (get_by_pk Newsletter.pk (newsletters db) pk); exact Hu.
  - unfold forgot_password.
    destruct_tests; exact Hu.
Qed.

(** ** Newsletters *)

Lemma Newsletter_eqb_eq a b : Newsletter.eqb a b = true <-> a = b.
Proof.
  unfold Newsletter.eqb. split.
  - intros H. repeat (apply andb_prop in H as [H ?]).
    destruct a as [pa ta aa pua ca], b as [pb tb ab pub cb]; simpl in *.
    apply Nat.eqb_eq in H. apply String.eqb_eq in H3.
    apply Nat.eqb_eq in H2, H0. subst.
    destruct pua as [x|], pub as [y|]; try discriminate; [|reflexivity].
    apply Nat.eqb_eq in H1. now subst.
  - intros <-. rewrite !Nat.eqb_refl, String.eqb_refl. simpl.
    destruct (Newsletter.publisher a); rewrite ?Nat.eqb_refl; reflexivity.
Qed.

Lemma in_distinct l x : In x (distinct l) <-> In x l.
Proof.
  induction l as [|y ys IH]; simpl; [tauto|].
  rewrite filter_In, IH. split.
  - intros [H | [H _]]; auto.
  - intros [H | H]; auto.
    destruct (Newsletter.eqb y x) eqn:E.
    + apply Newsletter_eqb_eq in E. auto.
    + right. split; [exact H | reflexivity].
Qed.

Lemma NoDup_distinct l : NoDup (distinct l).
Proof.
  induction l as [|y ys IH]; simpl; constructor.
  - rewrite filter_In. intros [_ H].
    assert (E : Newsletter.eqb y y = true) by now apply Newsletter_eqb_eq.
    rewrite E in H. discriminate.
  - now apply NoDup_filter.
Qed.

Lemma insert_desc_perm x l : Permutation (insert_desc x l) (x :: l).
Proof.
  induction l as [|y ys IH]; simpl; [reflexivity|].
  destruct (Newsletter.created_at y <=? Newsletter.created_at x);
    [reflexivity|].
  rewrite IH. apply perm_swap.
Qed.

Lemma order_by_perm l : Permutation (order_by_created_at_desc l) l.
Proof.
  induction l as [|y ys IH]; simpl; [reflexivity|].
  rewrite insert_desc_perm. now constructor.
Qed.

Lemma insert_desc_sorted x l :
  StronglySorted newer_first l -> StronglySorted newer_first (insert_desc x l).
Proof.
  induction 1 as [|y ys Hs IH Hall]; simpl.
  - repeat constructor.
  - destruct (Newsletter.created_at y <=? Newsletter.created_at x) eqn:E.
    + apply Nat.leb_le in E. constructor; [now constructor|].
      constructor; [exact E|].
      eapply Forall_impl; [|exact Hall].
      unfold newer_first. intros z Hz. lia.
    + apply Nat.leb_gt in E. constructor; [exact IH|].
      eapply Permutation_Forall;
        [symmetry; apply insert_desc_perm|].
      constructor; [unfold newer_first; lia | exact Hall].
Qed.

Lemma order_by_sorted l :
  StronglySorted newer_first (order_by_created_at_desc l).
Proof.
  induction l as [|y ys IH]; simpl; [constructor|].
  now apply insert_desc_sorted.
Qed.

Lemma StronglySorted_firstn {A} (R : A -> A -> Prop) n l :
  StronglySorted R l -> StronglySorted R (firstn n l).
Proof.
  intros H. revert n. induction H as [|x xs Hs IH Hall]; intros [|n]; simpl;
    try constructor; auto.
  apply Forall_forall. intros y Hy. apply in_firstn in Hy.
  rewrite Forall_forall in Hall. auto.
Qed.

Lemma NoDup_firstn {A} n (l : list A) : NoDup l -> NoDup (firstn n l).
Proof.
  intros H. revert n. induction H as [|x xs Hx Hs IH]; intros [|n]; simpl;
    try constructor; auto.
  intros Hin. apply in_firstn in Hin. contradiction.
Qed.

(** In a sorted list every row of a prefix comes before every row of the
    rest. *)
Lemma StronglySorted_split {A} (R : A -> A -> Prop) n l a b :
  StronglySorted R l -> In a (firstn n l) -> In b (skipn n l) -> R a b.
Proof.
  intros H. revert n. induction H as [|x xs Hs IH Hall]; intros [|n]; simpl;
    try contradiction.
  intros [<- | Ha] Hb.
  - rewrite Forall_forall in Hall. apply Hall. now apply in_skipn in Hb.
  - eauto.
Qed.

Lemma existsb_eqb_In k l : existsb (Nat.eqb k) l = true <-> In k l.
Proof.
  rewrite existsb_exists. split.
  - intros (x & Hx & E). apply Nat.eqb_eq in E. now subst.
  - intros H. exists k. split; [exact H | apply Nat.eqb_refl].
Qed.

Lemma in_subscribed_publishers db u p :
  In p (subscribed_publishers db u)
  <-> exists s, In s (subscriptions db)
                /\ Subscription.user s = User.pk u
                /\ Subscription.publisher s = Some p.
Proof.
  unfold subscribed_publishers, subscriptions_of. rewrite in_flat_map. split.
  - intros (s & Hs & Hp). apply filter_In in Hs as [Hin Hu].
    apply Nat.eqb_eq in Hu. exists s. repeat split; auto.
    destruct (Subscription.publisher s) as [q|]; simpl in Hp; [|tauto].
    destruct Hp as [-> | []]. reflexivity.
  - intros (s & Hin & Hu & Hp). exists s. split.
    + apply filter_In. split; [exact Hin | now apply Nat.eqb_eq].
    + rewrite Hp. now left.
Qed.

Lemma in_subscribed_journalists db u j :
  In j (subscribed_journalists db u)
  <-> exists s, In s (subscriptions db)
                /\ Subscription.user s = User.pk u
                /\ Subscription.journalist s = Some j.
Proof.
  unfold subscribed_journalists, subscriptions_of. rewrite in_flat_map. split.
  - intros (s & Hs & Hp). apply filter_In in Hs as [Hin Hu].
    apply Nat.eqb_eq in Hu. exists s. repeat split; auto.
    destruct (Subscription.journalist s) as [q|]; simpl in Hp; [|tauto].
    destruct Hp as [-> | []]. reflexivity.
  - intros (s & Hin & Hu & Hp). exists s. split.
    + apply filter_In. split; [exact Hin | now apply Nat.eqb_eq].
    + rewrite Hp. now left.
Qed.

(** The filter of the reader's branch selects what the spec calls the
    visible set. *)
Lemma in_subscriptions_iff db u n :
  in_subscriptions (subscribed_publishers db u) (subscribed_journalists db u) n
  = true
  <-> subscribed_to db u n.
Proof.
  unfold in_subscriptions, subscribed_to. rewrite orb_true_iff. split.
  - intros [H | H].
    + destruct (Newsletter.publisher n) as [p|] eqn:Hp; [|discriminate].
      apply existsb_eqb_In, in_subscribed_publishers in H
        as (s & Hin & Hu & Hs).
      exists s. repeat split; eauto.
    + apply existsb_eqb_In, in_subscribed_journalists in H
        as (s & Hin & Hu & Hs).
      exists s. repeat split; auto.
  - intros (s & Hin & Hu & [(p & Hs & Hn) | Hs]).
    + left. rewrite Hn. apply existsb_eqb_In, in_subscribed_publishers. eauto.
    + right. apply existsb_eqb_In, in_subscribed_journalists. eauto.
Qed.

Lemma reader_not_journalist u :
  User.is_reader u = true -> User.is_journalist u = false.
Proof.
  unfold User.is_reader, User.is_journalist. now destruct (User.role u).
Qed.

(** C8. For a logged-in reader [newsletter_list] renders exactly the
    newsletters of the publishers and journalists the reader subscribed
    to: every rendered row is a stored newsletter of a subscribed publisher
    or journalist, no row is rendered twice, the rows are ordered by
    [created_at] descending, there are at most 50 of them, and a visible
    newsletter is left out only when 50 rows at least as new are shown. *)
Theorem newsletter_list_reader db request u :
  req_user request = Some u ->
  User.is_reader u = true ->
  exists nls,
    newsletter_list db request
    = mkOutcome (Render "news/newsletter_list.html" (CtxNewsletters nls)) [] db
    /\ (forall n, In n nls -> In n (newsletters db) /\ subscribed_to db u n)
    /\ NoDup nls
    /\ StronglySorted newer_first nls
    /\ List.length nls <= 50
    /\ (forall n, In n (newsletters db) -> subscribed_to db u n ->
          In n nls
          \/ (List.length nls = 50
              /\ forall m, In m nls ->
                   Newsletter.created_at n <= Newsletter.created_at m)).
Proof.
  intros Hu Hr. unfold newsletter_list, newsletter_list_queryset.
  rewrite Hu, (reader_not_journalist u Hr), Hr.
  set (visible := filter (in_subscriptions (subscribed_publishers db u)
                            (subscribed_journalists db u)) (newsletters db)).
  set (sorted := order_by_created_at_desc (distinct visible)).
  assert (Hin : forall n, In n sorted
                          <-> In n (newsletters db) /\ subscribed_to db u n).
  { intros n. subst sorted visible. split.
    - intros H. apply (Permutation_in _ (order_by_perm _)) in H.
      apply in_distinct, filter_In in H as [H1 H2].
      split; [exact H1 | now apply in_subscriptions_iff].
    - intros [H1 H2].
      apply (Permutation_in _ (Permutation_sym (order_by_perm _))).
      apply in_distinct, filter_In.
      split; [exact H1 | now apply in_subscriptions_iff]. }
  assert (Hsorted : StronglySorted newer_first sorted)
    by apply order_by_sorted.
  exists (firstn 50 sorted). split; [reflexivity|].
  split; [|split; [|split; [|split]]].
  - intros n Hn. apply Hin. now apply in_firstn in Hn.
  - apply NoDup_firstn.
    eapply Permutation_NoDup;
      [symmetry; apply order_by_perm | apply NoDup_distinct].
  - now apply StronglySorted_firstn.
  - apply firstn_le_length.
  - intros n Hn Hsub.
    assert (Hs : In n sorted) by now apply Hin.
    rewrite <- (firstn_skipn 50 sorted) in Hs.
    apply in_app_or in Hs as [Hs | Hs]; [now left | right].
    split.
    + rewrite length_firstn.
      destruct (Nat.le_gt_cases (List.length sorted) 50) as [Hle | Hgt];
        [|lia].
      rewrite (skipn_all2 sorted Hle) in Hs. contradiction.
    + intros m Hm.
      exact (StronglySorted_split newer_first 50 sorted m n Hsorted Hm Hs).
Qed.

Lemma newsletter_list_reader_witness :
  exists nls,
    newsletter_list newsroom_subscribed (mkRequest (Some rita) GET tt)
    = mkOutcome (Render "news/newsletter_list.html" (CtxNewsletters nls)) []
        newsroom_subscribed
    /\ (forall n, In n nls ->
          In n (newsletters newsroom_subscribed)
          /\ subscribed_to newsroom_subscribed rita n)
    /\ NoDup nls
    /\ StronglySorted newer_first nls
    /\ List.length nls <= 50
    /\ (forall n, In n (newsletters newsroom_subscribed) ->
          subscribed_to newsroom_subscribed rita n ->
          In n nls
          \/ (List.length nls = 50
              /\ forall m, In m nls ->
                   Newsletter.created_at n <= Newsletter.created_at m)).
Proof.
  exact (newsletter_list_reader newsroom_subscribed
           (mkRequest (Some rita) GET tt) rita eq_refl eq_refl).
Defined.

(** Rita's feed: Bob's digest, the newer one, before the Tribune's
    weekly. *)
Example newsletter_list_rita :
  newsletter_list_queryset newsroom_subscribed (Some rita) = [digest; weekly].
Proof. reflexivity. Qed.

(** C9. [newsletter_detail] renders the newsletter stored under the
    requested key for every requester: anonymous or logged in, of any
    role, with any subscriptions or none. It queues no message and
    leaves the database as it is. *)
Theorem newsletter_detail_public db request pk newsletter :
  get_by_pk Newsletter.pk (newsletters db) pk = Some newsletter ->
  newsletter_detail db request pk
  = mkOutcome (Render "news/newsletter_detail.html" (CtxNewsletter newsletter))
      [] db.
Proof.
  intros Hn. unfold newsletter_detail. now rewrite Hn.
Qed.

Lemma newsletter_detail_public_witness :
  newsletter_detail newsroom (mkRequest (Some rita) GET tt) 2
  = mkOutcome (Render "news/newsletter_detail.html" (CtxNewsletter digest))
      [] newsroom
  /\ newsletter_list_queryset newsroom (Some rita) = [].
Proof.
  split; [|reflexivity].
  exact (newsletter_detail_public newsroom (mkRequest (Some rita) GET tt) 2
           digest eq_refl).
Defined.

(** An anonymous visitor is served the same page. *)
Example newsletter_detail_anonymous :
  newsletter_detail newsroom (mkRequest None GET tt) 2
  = newsletter_detail newsroom (mkRequest (Some rita) GET tt) 2.
Proof. reflexivity. Qed.

(** ** Password reset request *)

Lemma objects_get_none {A} (lookup : A -> bool) table :
  (forall x, In x table -> lookup x = false) ->
  objects_get lookup table = DoesNotExist.
Proof.
  intros H. unfold objects_get.
  destruct (filter lookup table) as [|x xs] eqn:E; [reflexivity|].
  assert (Hx : In x (filter lookup table)) by (rewrite E; now left).
  apply filter_In in Hx as [Hin Hl]. rewrite (H x Hin) in Hl. discriminate.
Qed.

(** Whoever asks, an address no account has is answered differently from
    an address some account has, however many accounts share it. *)
Lemma forgot_password_distinguishes db who env known unknown u :
  In u (users db) -> User.email u = known ->
  (forall x, In x (users db) -> User.email x <> unknown) ->
  response (outcome (forgot_password db (mkRequest who POST (Some known)) env))
  <> response
       (outcome (forgot_password db (mkRequest who POST (Some unknown)) env)).
Proof.
  intros Hin Hk Hun. unfold forgot_password. simpl.
  rewrite (objects_get_none (fun x => String.eqb (User.email x) unknown)).
  2:{ intros x Hx. apply String.eqb_neq. now apply Hun. }
  unfold objects_get.
  destruct (filter (fun x => String.eqb (User.email x) known) (users db))
    as [|x [|y ys]] eqn:E; simpl; try discriminate.
  - assert (Hu : In u (filter (fun x => String.eqb (User.email x) known)
                              (users db))).
    { apply filter_In. split; [exact Hin | now apply String.eqb_eq]. }
    rewrite E in Hu. contradiction.
  - destruct (send_mail_error env); discriminate.
Qed.

(** C10. The outcome of a password-reset request tells whether the
    address has an account. For the address of the one account that has
    it, a token for that account is stored and the request succeeds, also
    when sending the mail fails (the failure is only printed); for an
    address no account has, the request ends in an error and stores
    nothing. The two responses differ. *)
Theorem forgot_password_reveals_account db who token site mail_error now
    known unknown u :
  filter (fun x => String.eqb (User.email x) known) (users db) = [u] ->
  (forall x, In x (users db) -> User.email x <> unknown) ->
  let ask e := outcome (forgot_password db (mkRequest who POST (Some e))
                          (mkResetEnv token site mail_error now)) in
  (response (ask known) = Redirect "news:login"
   /\ messages (ask known)
      = [(SUCCESS, "Password reset link sent to your email.")]
   /\ reset_tokens (db_after (ask known))
      = reset_tokens db ++ [PasswordResetToken.mk (User.pk u) token now false])
  /\ (response (ask unknown)
      = Render "news/forgot_password.html" (CtxForm true)
      /\ messages (ask unknown)
         = [(ERROR, "No account found with that email address.")]
      /\ db_after (ask unknown) = db)
  /\ response (ask known) <> response (ask unknown)
  /\ denied (ask known) <> denied (ask unknown).
Proof.
  intros Hone Hnone ask. subst ask. unfold forgot_password. simpl.
  rewrite (objects_get_none (fun x => String.eqb (User.email x) unknown)).
  2:{ intros x Hx. apply String.eqb_neq. now apply Hnone. }
  unfold objects_get. rewrite Hone.
  destruct mail_error; unfold denied; simpl; repeat split; discriminate.
Qed.

Lemma forgot_password_reveals_account_witness :
  let ask e :=
    outcome (forgot_password newsroom (mkRequest None POST (Some e))
               (mkResetEnv "tok" "https://burst.example"
                           (Some "SMTPException") 7)) in
  (response (ask "alice@burst.example") = Redirect "news:login"
   /\ messages (ask "alice@burst.example")
      = [(SUCCESS, "Password reset link sent to your email.")]
   /\ reset_tokens (db_after (ask "alice@burst.example"))
      = [PasswordResetToken.mk 1 "tok" 7 false])
  /\ (response (ask "nobody@burst.example")
      = Render "news/forgot_password.html" (CtxForm true)
      /\ messages (ask "nobody@burst.example")
         = [(ERROR, "No account found with that email address.")]
      /\ db_after (ask "nobody@burst.example") = newsroom)
  /\ response (ask "alice@burst.example")
     <> response (ask "nobody@burst.example")
  /\ denied (ask "alice@burst.example")
     <> denied (ask "nobody@burst.example").
Proof.
  apply (forgot_password_reveals_account newsroom None "tok"
           "https://burst.example" (Some "SMTPException") 7
           "alice@burst.example" "nobody@burst.example" alice).
  - reflexivity.
  - intros x Hx. simpl in Hx.
    repeat (destruct Hx as [<- | Hx]; [discriminate|]). contradiction.
Defined.

(** A failed dispatch is printed and nothing is sent; the outcome is that
    of a delivered mail. *)
Example forgot_password_mail_failure :
  let ask mail_error :=
    forgot_password newsroom
      (mkRequest None POST (Some "alice@burst.example"))
      (mkResetEnv "tok" "https://burst.example" mail_error 7) in
  outcome (ask (Some "SMTPException")) = outcome (ask None)
  /\ outbox (ask (Some "SMTPException")) = []
  /\ stdout (ask (Some "SMTPException"))
     = ["Email sending failed: SMTPException"]
  /\ outbox (ask None)
     = [mkMail "Password Reset Request"
          "Click the link to reset your password: https://burst.example/reset-password/tok/"
          ["alice@burst.example"]].
Proof. repeat split. Qed.

(** * Further properties of the views *)

(** ** Keys *)

Lemma next_pk_fresh {A} (pk_of : A -> nat) table r :
  In r table -> pk_of r < next_pk pk_of table.
Proof.
  unfold next_pk. induction table as [|x xs IH]; simpl; [contradiction|].
  intros [<- | H]; [lia|]. apply IH in H. lia.
Qed.

Lemma get_by_pk_none {A} (pk_of : A -> nat) table k :
  (forall r, In r table -> pk_of r <> k) -> get_by_pk pk_of table k = None.
Proof.
  intros H. unfold get_by_pk.
  destruct (find (fun r => pk_of r =? k) table) as [r|] eqn:E; [|reflexivity].
  apply find_some in E as [Hin Hk]. apply Nat.eqb_eq in Hk.
  now apply H in Hin.
Qed.

Lemma get_by_pk_app_new {A} (pk_of : A -> nat) table row :
  (forall r, In r table -> pk_of r <> pk_of row) ->
  get_by_pk pk_of (table ++ [row]) (pk_of row) = Some row.
Proof.
  intros H. unfold get_by_pk. induction table as [|x xs IH]; simpl.
  - now rewrite Nat.eqb_refl.
  - destruct (pk_of x =? pk_of row) eqn:E.
    + apply Nat.eqb_eq in E. exfalso. apply (H x); [now left | exact E].
    + apply IH. intros r Hr. apply H. now right.
Qed.

Lemma get_by_pk_save_row_cases {A} (pk_of : A -> nat) table row old k r :
  get_by_pk pk_of table (pk_of row) = Some old ->
  get_by_pk pk_of table k = Some r ->
  get_by_pk pk_of (save_row pk_of table row) k
  = Some (if pk_of row =? k then row else r).
Proof.
  intros Hold Hr. destruct (pk_of row =? k) eqn:E.
  - apply Nat.eqb_eq in E. subst k.
    now apply get_by_pk_save_row_same with old.
  - apply Nat.eqb_neq in E. now rewrite get_by_pk_save_row_other.
Qed.

Lemma NoDup_map_inj {A B} (f : A -> B) l a b :
  NoDup (map f l) -> In a l -> In b l -> f a = f b -> a = b.
Proof.
  induction l as [|x xs IH]; simpl; [contradiction|].
  intros Hnd Ha Hb Hf. inversion Hnd as [|? ? Hx Hxs]; subst.
  destruct Ha as [-> | Ha], Hb as [-> | Hb]; auto.
  - exfalso. apply Hx. rewrite Hf. now apply in_map.
  - exfalso. apply Hx. rewrite <- Hf. now apply in_map.
Qed.

Lemma filter_all {A} (f : A -> bool) l :
  (forall x, In x l -> f x = true) -> filter f l = l.
Proof.
  induction l as [|x xs IH]; simpl; intros H; [reflexivity|].
  rewrite (H x (or_introl eq_refl)). f_equal. apply IH. auto.
Qed.

Lemma find_app_last {A} (f : A -> bool) l row :
  (forall x, In x l -> f x = false) -> f row = true ->
  find f (l ++ [row]) = Some row.
Proof.
  intros Hl Hrow. induction l as [|x xs IH]; simpl.
  - now rewrite Hrow.
  - rewrite (Hl x (or_introl eq_refl)). apply IH. intros y Hy. apply Hl.
    now right.
Qed.

(** ** Removing subscriptions *)

(** X1. [delete_subscription] answers 404 and changes nothing when no
    stored subscription has both the requested key and the requester as its
    user: a subscription that exists but belongs to somebody else is
    reported like one that does not exist. *)
Theorem delete_subscription_foreign db request pk u :
  req_user request = Some u ->
  (forall s, In s (subscriptions db) -> Subscription.pk s = pk ->
             Subscription.user s <> User.pk u) ->
  delete_subscription db request pk = mkOutcome Http404 [] db.
Proof.
  intros Hu Hforeign. unfold delete_subscription. rewrite Hu.
  destruct (find _ (subscriptions db)) as [s|] eqn:E; [|reflexivity].
  apply find_some in E as [Hin Hs]. apply andb_prop in Hs as [Hk Hown].
  apply Nat.eqb_eq in Hk, Hown. now apply Hforeign in Hin.
Qed.

Lemma delete_subscription_foreign_witness :
  delete_subscription shared_desk (mkRequest (Some rita) POST tt) 2
  = mkOutcome Http404 [] shared_desk.
Proof.
  apply (delete_subscription_foreign shared_desk
           (mkRequest (Some rita) POST tt) 2 rita eq_refl).
  intros s Hs Hk. simpl in Hs.
  destruct Hs as [<- | [<- | []]]; simpl in *; [discriminate Hk | discriminate].
Defined.

(** X2. Where primary keys are unique, no request to [delete_subscription]
    removes a subscription of a user other than the requester, whatever
    key it names. *)
Theorem delete_subscription_keeps_others db request pk s :
  NoDup (map Subscription.pk (subscriptions db)) ->
  In s (subscriptions db) ->
  (forall u, req_user request = Some u -> Subscription.user s <> User.pk u) ->
  In s (subscriptions (db_after (delete_subscription db request pk))).
Proof.
  intros Hnd Hin Hother. unfold delete_subscription.
  destruct (req_user request) as [u|]; [|exact Hin].
  destruct (find _ (subscriptions db)) as [sub|] eqn:E; [|exact Hin].
  destruct (req_method request); [exact Hin|].
  simpl. apply filter_In. split; [exact Hin|].
  apply find_some in E as [Hsub Htest]. apply andb_prop in Htest as [_ Hown].
  apply Nat.eqb_eq in Hown.
  apply negb_true_iff, Nat.eqb_neq. intros Hk.
  assert (Heq : s = sub) by exact (NoDup_map_inj _ _ _ _ Hnd Hin Hsub Hk).
  subst sub. exact (Hother u eq_refl Hown).
Qed.

Lemma delete_subscription_keeps_others_witness :
  In (Subscription.mk 2 6 (Some 1) None)
     (subscriptions
        (db_after (delete_subscription shared_desk
                     (mkRequest (Some rita) POST tt) 1))).
Proof.
  apply (delete_subscription_keeps_others shared_desk
           (mkRequest (Some rita) POST tt) 1
           (Subscription.mk 2 6 (Some 1) None)).
  - simpl. repeat constructor; simpl; intuition discriminate.
  - simpl. auto.
  - intros u [= <-]. discriminate.
Defined.

(** X3. A reader who subscribes to a valid single target they do not
    follow yet gets one row appended, theirs and for that target, under a
    key no stored row has; deleting the subscription under the key of that
    row succeeds and gives back the subscriptions, and the database, as
    they were. Which key the row was given plays no part. *)
Theorem subscribe_delete_round_trip db u t :
  User.is_reader u = true ->
  valid_target db t = true ->
  filter (has_key (User.pk u) t) (subscriptions db) = [] ->
  let first := subscribe db u t in
  exists row,
    subscriptions (db_after first) = subscriptions db ++ [row]
    /\ has_key (User.pk u) t row = true
    /\ (forall s, In s (subscriptions db) ->
          Subscription.pk s <> Subscription.pk row)
    /\ let second :=
         delete_subscription (db_after first) (mkRequest (Some u) POST tt)
           (Subscription.pk row) in
       messages second = [(SUCCESS, "Subscription removed successfully")]
       /\ db_after second = db.
Proof.
  intros Hr Hv Hnone first. rewrite filter_has_key in Hnone.
  assert (Hfirst : exists row,
    has_key (User.pk u) t row = true
    /\ Subscription.pk row = next_pk Subscription.pk (subscriptions db)
    /\ db_after first
       = set_subscriptions db (subscriptions db ++ [row])).
  { subst first. unfold subscribe, subscription_management.
    cbn [req_user req_method req_POST]. rewrite Hr. cbn [negb].
    destruct t as [p | j]; cbn [target_POST valid_target key_lookup] in *.
    - destruct (get_by_pk Publisher.pk (publishers db) p) as [pr|] eqn:Hp;
        [|discriminate].
      destruct (get_by_pk_some _ _ _ _ Hp) as [Hk _]. subst p.
      rewrite (SubscriptionForm_is_valid_publisher db _ pr Hp).
      unfold get_or_create. rewrite Hnone. cbn [db_after].
      exists (Subscription.mk (next_pk Subscription.pk (subscriptions db))
                (User.pk u) (Some (Publisher.pk pr)) None).
      split; [|split; reflexivity].
      rewrite has_key_lookup. apply lookup_publisher_new.
    - destruct (get_by_pk User.pk (filter User.is_journalist (users db)) j)
        as [jr|] eqn:Hj; [|discriminate].
      destruct (get_by_pk_some _ _ _ _ Hj) as [Hk _]. subst j.
      rewrite (SubscriptionForm_is_valid_journalist db _ jr Hj).
      unfold get_or_create. rewrite Hnone. cbn [db_after].
      exists (Subscription.mk (next_pk Subscription.pk (subscriptions db))
                (User.pk u) None (Some (User.pk jr))).
      split; [|split; reflexivity].
      rewrite has_key_lookup. apply lookup_journalist_new. }
  destruct Hfirst as (row & Hkey & Hk & Hdb).
  assert (Hfresh : forall s, In s (subscriptions db) ->
                             Subscription.pk s <> Subscription.pk row).
  { intros s Hs. pose proof (next_pk_fresh Subscription.pk _ _ Hs). lia. }
  assert (Hown : Subscription.user row = User.pk u).
  { unfold has_key in Hkey. apply andb_prop in Hkey as [Hown _].
    now apply Nat.eqb_eq in Hown. }
  clear Hk. exists row. rewrite Hdb.
  split; [reflexivity|]. split; [exact Hkey|]. split; [exact Hfresh|].
  unfold delete_subscription. cbn [req_user req_method subscriptions
                                   set_subscriptions].
  assert (Hfind :
    find (fun s => (Subscription.pk s =? Subscription.pk row)
                   && (Subscription.user s =? User.pk u))
         (subscriptions db ++ [row]) = Some row).
  { apply find_app_last.
    - intros s Hs. apply Hfresh in Hs. apply Nat.eqb_neq in Hs.
      now rewrite Hs.
    - now rewrite Hown, !Nat.eqb_refl. }
  rewrite Hfind. cbn [messages db_after]. split; [reflexivity|].
  rewrite filter_app. simpl. rewrite Nat.eqb_refl. simpl.
  rewrite app_nil_r, filter_all.
  - destruct db; reflexivity.
  - intros s Hs. simpl. apply Hfresh in Hs. apply Nat.eqb_neq in Hs.
    now rewrite Hs.
Qed.

(** Rita, who follows the Tribune, follows Bob and then stops. *)
Lemma subscribe_delete_round_trip_witness :
  let first := subscribe shared_desk rita (ToJournalist 2) in
  exists row,
    subscriptions (db_after first) = subscriptions shared_desk ++ [row]
    /\ has_key 5 (ToJournalist 2) row = true
    /\ (forall s, In s (subscriptions shared_desk) ->
          Subscription.pk s <> Subscription.pk row)
    /\ let second :=
         delete_subscription (db_after first) (mkRequest (Some rita) POST tt)
           (Subscription.pk row) in
       messages second = [(SUCCESS, "Subscription removed successfully")]
       /\ db_after second = shared_desk.
Proof.
  exact (subscribe_delete_round_trip shared_desk rita (ToJournalist 2)
           eq_refl eq_refl eq_refl).
Defined.

(** ** What subscribing stores *)

Lemma set_subscriptions_same db : set_subscriptions db (subscriptions db) = db.
Proof. destruct db; reflexivity. Qed.

(** Either nothing is stored, or one row is appended for the requesting
    reader, under a new key and with a single target. *)
Lemma subscription_management_shape db r :
  db_after (subscription_management db r) = db
  \/ exists u row,
       req_user r = Some u /\ User.is_reader u = true
       /\ req_method r = POST
       /\ Subscription.pk row = next_pk Subscription.pk (subscriptions db)
       /\ Subscription.user row = User.pk u
       /\ one_target row = true
       /\ db_after (subscription_management db r)
          = set_subscriptions db (subscriptions db ++ [row]).
Proof.
  unfold subscription_management.
  destruct (req_user r) as [u|]; [|now left].
  destruct (User.is_reader u) eqn:Hr; [|now left]. cbn [negb].
  destruct (req_method r) eqn:Hm; [now left|].
  destruct (SubscriptionForm_is_valid db (req_POST r))
    as [errors|[[pr|] [jr|]]]; try (now left).
  - unfold get_or_create.
    destruct (filter _ (subscriptions db)) as [|x [|y ys]]; try (now left).
    right. exists u. eexists. repeat split; try reflexivity; assumption.
  - unfold get_or_create.
    destruct (filter _ (subscriptions db)) as [|x [|y ys]]; try (now left).
    right. exists u. eexists. repeat split; try reflexivity; assumption.
  - unfold get_or_create.
    destruct (filter _ (subscriptions db)) as [|x [|y ys]]; try (now left).
    right. exists u. eexists. repeat split; try reflexivity; assumption.
Qed.

(** X4. [subscription_management] never removes or rewrites a stored
    subscription and touches no other table: it appends at most one row,
    and a row it appends is stored under a key no row had, for the
    requesting user, who is a reader, and names exactly one of a publisher
    and a journalist. *)
Theorem subscription_management_appends db request :
  exists extra,
    db_after (subscription_management db request)
    = set_subscriptions db (subscriptions db ++ extra)
    /\ List.length extra <= 1
    /\ forall row, In row extra ->
         (exists u, req_user request = Some u /\ User.is_reader u = true
                    /\ Subscription.user row = User.pk u)
         /\ one_target row = true
         /\ forall s, In s (subscriptions db) ->
                      Subscription.pk s <> Subscription.pk row.
Proof.
  destruct (subscription_management_shape db request)
    as [Hsame | (u & row & Hu & Hr & _ & Hk & Hown & Hone & Hdb)].
  - exists []. split; [|split; [simpl; lia | intros row []]].
    rewrite Hsame, app_nil_r. symmetry. apply set_subscriptions_same.
  - exists [row]. split; [exact Hdb|]. split; [simpl; lia|].
    intros row' [<- | []]. split; [eauto|]. split; [exact Hone|].
    intros s Hs. pose proof (next_pk_fresh Subscription.pk _ _ Hs). lia.
Qed.

Lemma dispatch_subscriptions db op :
  subscriptions (db_after (dispatch db op)) = subscriptions db
  \/ (exists row, one_target row = true
                  /\ subscriptions (db_after (dispatch db op))
                     = subscriptions db ++ [row])
  \/ exists f, subscriptions (db_after (dispatch db op))
               = filter f (subscriptions db).
Proof.
  destruct op; simpl.
  - unfold article_list. destruct_tests; now left.
  - unfold article_detail. destruct_tests; now left.
  - unfold create_article. destruct_tests; now left.
  - unfold edit_article. destruct_tests; now left.
  - unfold approve_article. destruct_tests; now left.
  - destruct (subscription_management_shape db r)
      as [-> | (u & row & _ & _ & _ & _ & _ & Hone & ->)]; [now left|].
    right. left. exists row. split; [exact Hone | reflexivity].
  - unfold delete_subscription. destruct_tests; try (now left).
    right. right. eexists. reflexivity.
  - now left.
  - unfold newsletter_detail. destruct_tests; now left.
  - unfold forgot_password. destruct_tests; now left.
Qed.

(** X5. Exactly-one-of is an invariant of the views: if every stored
    subscription names exactly one of a publisher and a journalist, so
    does every subscription stored after any sequence of requests. *)
Theorem run_one_target db ops :
  Forall (fun s => one_target s = true) (subscriptions db) ->
  Forall (fun s => one_target s = true) (subscriptions (run db ops)).
Proof.
  unfold run. revert db.
  induction ops as [|op ops IH]; intros db Hall; simpl; [exact Hall|].
  apply IH.
  destruct (dispatch_subscriptions db op)
    as [-> | [(row & Hone & ->) | (f & ->)]].
  - exact Hall.
  - apply Forall_app. split; [exact Hall | now constructor].
  - rewrite Forall_forall in *. intros s Hs. apply filter_In in Hs as [Hs _].
    now apply Hall.
Qed.

Lemma run_one_target_witness :
  Forall (fun s => one_target s = true)
    (subscriptions
       (run shared_desk
          [OpSubscriptionManagement (mkRequest (Some rita) POST both_targets);
           OpDeleteSubscription (mkRequest (Some rob) POST tt) 2;
           OpSubscriptionManagement
             (mkRequest (Some rob) POST (target_POST (ToJournalist 2)))])).
Proof.
  apply run_one_target. simpl. repeat constructor.
Defined.

(** ** Who may change articles *)

(** X6. [approve_article] changes the database only on a POST by an
    editor for a stored article that has no publisher or whose publisher
    counts the editor among its editors. In particular an editor cannot
    approve an article of a publisher they do not edit for. *)
Theorem approve_article_only_authorized db request now pk :
  db_after (approve_article db request now pk) <> db ->
  exists u article,
    req_user request = Some u
    /\ User.is_editor u = true
    /\ get_by_pk Article.pk (articles db) pk = Some article
    /\ passes_publisher_guard db u article = true
    /\ req_method request = POST.
Proof.
  unfold approve_article, passes_publisher_guard. intros Hne.
  destruct (req_user request) as [u|]; [|now contradiction Hne].
  destruct (User.is_editor u) eqn:He; [|now contradiction Hne].
  cbn [negb] in Hne.
  destruct (get_by_pk Article.pk (articles db) pk) as [a|];
    [|now contradiction Hne].
  exists u, a.
  destruct (Article.publisher a) as [p|].
  - destruct (editors_exists db p (User.pk u)); [|now contradiction Hne].
    cbn [negb] in Hne.
    destruct (req_method request); [now contradiction Hne|]. auto.
  - destruct (req_method request); [now contradiction Hne|]. auto.
Qed.

Lemma approve_article_only_authorized_witness :
  exists u article,
    Some erin = Some u
    /\ User.is_editor u = true
    /\ get_by_pk Article.pk (articles newsroom) 3 = Some article
    /\ passes_publisher_guard newsroom u article = true
    /\ POST = POST.
Proof.
  apply (approve_article_only_authorized newsroom
           (mkRequest (Some erin) POST (approval "published")) 100 3).
  intros H.
  apply (f_equal (fun d => status_of d 3)) in H. discriminate H.
Defined.

Lemma same_origin_refl a : same_origin a a.
Proof. repeat split. Qed.

Lemma same_origin_trans a b c :
  same_origin a b -> same_origin b c -> same_origin a c.
Proof.
  unfold same_origin. intros (H1 & H2 & H3) (H4 & H5 & H6).
  repeat split; congruence.
Qed.

Lemma save_row_origin db a new k r :
  get_by_pk Article.pk (articles db) (Article.pk a) = Some a ->
  same_origin a new ->
  get_by_pk Article.pk (articles db) k = Some r ->
  exists r',
    get_by_pk Article.pk
      (articles (set_articles db (save_row Article.pk (articles db) new))) k
    = Some r'
    /\ same_origin r r'.
Proof.
  intros Ha Hnew Hr. destruct Hnew as (Hpk & Hrest).
  rewrite <- Hpk in Ha. simpl.
  rewrite (get_by_pk_save_row_cases Article.pk _ new a k r Ha Hr).
  destruct (Article.pk new =? k) eqn:E; eexists; split; try reflexivity.
  - apply Nat.eqb_eq in E. rewrite Hpk in Ha. rewrite <- E, Hpk in Hr.
    assert (r = a) by congruence. subst r. now split.
  - apply same_origin_refl.
Qed.

Lemma dispatch_origin db op k r :
  get_by_pk Article.pk (articles db) k = Some r ->
  exists r',
    get_by_pk Article.pk (articles (db_after (dispatch db op))) k = Some r'
    /\ same_origin r r'.
Proof.
  intros Hr.
  assert (Hsame : exists r', get_by_pk Article.pk (articles db) k = Some r'
                             /\ same_origin r r')
    by (exists r; split; [exact Hr | apply same_origin_refl]).
  destruct op; simpl.
  - unfold article_list. destruct_tests; exact Hsame.
  - unfold article_detail. destruct_tests; exact Hsame.
  - unfold create_article. destruct_tests; try exact Hsame.
    simpl. exists r. split; [now apply get_by_pk_app | apply same_origin_refl].
  - unfold edit_article.
    destruct (req_user r0) as [u|]; [|exact Hsame].
    destruct (get_by_pk Article.pk (articles db) pk) as [a|] eqn:Ha;
      [|exact Hsame].
    destruct (negb _); [exact Hsame|].
    destruct (req_method r0); [exact Hsame|].
    destruct (ArticleForm_is_valid (req_POST r0)) as [f|]; [|exact Hsame].
    cbn [db_after]. destruct (get_by_pk_some _ _ _ _ Ha) as [Hk _]. subst pk.
    apply save_row_origin with a; [exact Ha | repeat split | exact Hr].
  - unfold approve_article.
    destruct (req_user r0) as [u|]; [|exact Hsame].
    destruct (negb (User.is_editor u)); [exact Hsame|].
    destruct (get_by_pk Article.pk (articles db) pk) as [a|] eqn:Ha;
      [|exact Hsame].
    destruct (match Article.publisher a with Some _ => _ | None => _ end);
      [exact Hsame|].
    destruct (req_method r0); [exact Hsame|].
    destruct (ArticleApprovalForm_is_valid (req_POST r0)) as [c|];
      [|exact Hsame].
    cbn [db_after]. destruct (get_by_pk_some _ _ _ _ Ha) as [Hk _]. subst pk.
    apply save_row_origin with a; [exact Ha | repeat split | exact Hr].
  - unfold subscription_management. destruct_tests; exact Hsame.
  - unfold delete_subscription. destruct_tests; exact Hsame.
  - exact Hsame.
  - unfold newsletter_detail. destruct_tests; exact Hsame.
  - unfold forgot_password. destruct_tests; exact Hsame.
Qed.

(** X7. No sequence of requests deletes an article, moves it to another
    key, changes its author or changes its creation time: an article
    stored under a key is still stored under that key afterwards, with the
    same author and [created_at]. *)
Theorem run_keeps_origin db ops k article :
  get_by_pk Article.pk (articles db) k = Some article ->
  exists article',
    get_by_pk Article.pk (articles (run db ops)) k = Some article'
    /\ same_origin article article'.
Proof.
  unfold run. revert db article.
  induction ops as [|op ops IH]; intros db article Ha; simpl.
  - exists article. split; [exact Ha | apply same_origin_refl].
  - destruct (dispatch_origin db op k article Ha) as (a1 & H1 & Ho1).
    destruct (IH _ _ H1) as (a2 & H2 & Ho2).
    exists a2. split; [exact H2 | now apply same_origin_trans with a1].
Qed.

Lemma run_keeps_origin_witness :
  exists article',
    get_by_pk Article.pk
      (articles
         (run newsroom
            [OpEditArticle (mkRequest (Some eve) POST rewrite_fields) 2;
             OpApproveArticle
               (mkRequest (Some erin) POST (approval "rejected")) 100 2]))
      2 = Some article'
    /\ same_origin printed article'.
Proof.
  exact (run_keeps_origin newsroom
           [OpEditArticle (mkRequest (Some eve) POST rewrite_fields) 2;
            OpApproveArticle
              (mkRequest (Some erin) POST (approval "rejected")) 100 2]
           2 printed eq_refl).
Defined.

(** ** Creating articles *)

(** X8. A journalist's valid POST to [create_article] stores one new
    article and keeps every stored one: the new article has the form's
    title and content, the requester as its author whatever the form
    says, and a key no article had; the view redirects to that key, and
    the detail view then shows the author the article. *)
Theorem create_article_stores db request now u f :
  req_user request = Some u ->
  User.is_journalist u = true ->
  req_method request = POST ->
  ArticleForm_is_valid (req_POST request) = Some f ->
  let o := create_article db request now in
  let k := next_pk Article.pk (articles db) in
  exists article,
    articles (db_after o) = articles db ++ [article]
    /\ Article.pk article = k
    /\ (forall a, In a (articles db) -> Article.pk a <> k)
    /\ Article.author article = User.pk u
    /\ Article.title article = f_title f
    /\ Article.content article = f_content f
    /\ response o = RedirectPk "news:article_detail" k
    /\ response (article_detail (db_after o) (mkRequest (Some u) GET tt) k)
       = Render "news/article_detail.html" (CtxArticle article).
Proof.
  intros Hu Hj Hm Hf o k. subst o. unfold create_article.
  rewrite Hu, Hj, Hm, Hf. cbn [negb db_after response].
  assert (Hfresh : forall a, In a (articles db) -> Article.pk a <> k).
  { intros a Ha. pose proof (next_pk_fresh Article.pk _ _ Ha). subst k. lia. }
  exists (new_article k f (User.pk u) now). repeat split; auto.
  unfold article_detail. cbn [req_user articles set_articles].
  pose proof (get_by_pk_app_new Article.pk (articles db)
                (new_article k f (User.pk u) now) Hfresh) as Hget.
  change (Article.pk (new_article k f (User.pk u) now)) with k in Hget.
  unfold k in *. rewrite Hget.
  assert (Hnr : User.is_reader u = false).
  { unfold User.is_reader, User.is_journalist in *.
    now destruct (User.role u). }
  now rewrite Hnr.
Qed.

Lemma create_article_stores_witness :
  let o := create_article newsroom
             (mkRequest (Some bob) POST (mkArticlePOST (Some story_fields) None))
             50 in
  exists article,
    articles (db_after o) = articles newsroom ++ [article]
    /\ Article.pk article = 4
    /\ (forall a, In a (articles newsroom) -> Article.pk a <> 4)
    /\ Article.author article = 2
    /\ Article.title article = "Harvest"
    /\ Article.content article = "The harvest came early."
    /\ response o = RedirectPk "news:article_detail" 4
    /\ response (article_detail (db_after o) (mkRequest (Some bob) GET tt) 4)
       = Render "news/article_detail.html" (CtxArticle article).
Proof.
  exact (create_article_stores newsroom
           (mkRequest (Some bob) POST (mkArticlePOST (Some story_fields) None))
           50 bob story_fields eq_refl eq_refl eq_refl eq_refl).
Defined.

(** X9. [create_article] changes the database only on a POST by a
    journalist whose form is valid; everybody else, an editor or a staff
    member included, leaves it as it is. *)
Theorem create_article_only_journalists db request now :
  db_after (create_article db request now) <> db ->
  exists u f,
    req_user request = Some u
    /\ User.is_journalist u = true
    /\ req_method request = POST
    /\ ArticleForm_is_valid (req_POST request) = Some f.
Proof.
  unfold create_article. intros Hne.
  destruct (req_user request) as [u|]; [|now contradiction Hne].
  destruct (User.is_journalist u) eqn:Hj; [|now contradiction Hne].
  cbn [negb] in Hne.
  destruct (req_method request); [now contradiction Hne|].
  destruct (ArticleForm_is_valid (req_POST request)) as [f|];
    [|now contradiction Hne].
  exists u, f. repeat split. exact Hj.
Qed.

Lemma create_article_only_journalists_witness :
  exists u f,
    Some bob = Some u
    /\ User.is_journalist u = true
    /\ POST = POST
    /\ ArticleForm_is_valid (mkArticlePOST (Some story_fields) None) = Some f.
Proof.
  apply (create_article_only_journalists newsroom
           (mkRequest (Some bob) POST (mkArticlePOST (Some story_fields) None))
           50).
  intros H.
  apply (f_equal (fun d => List.length (articles d))) in H. discriminate H.
Defined.

(** ** Uploaded images *)

Lemma clean_hero_image_bad img :
  bad_image img -> clean_hero_image (Some img) = None.
Proof.
  unfold clean_hero_image. intros [(ct & Hct & Hbad) | Hsize].
  - rewrite Hct.
    destruct (existsb (String.eqb ct) allowed_types) eqn:E; [|reflexivity].
    apply existsb_exists in E as (x & Hx & Heq).
    apply String.eqb_eq in Heq. subst x. contradiction.
  - destruct (match content_type img with
              | Some ct => negb (existsb (String.eqb ct) allowed_types)
              | None => false
              end); [reflexivity|].
    apply Nat.ltb_lt in Hsize. now rewrite Hsize.
Qed.

(** X10. An upload with a declared content type other than JPEG, PNG, GIF
    or WebP, or of more than 5 MB, makes the article form invalid: neither
    [create_article] nor [edit_article] stores anything or reports
    success, whoever sends it and whatever the other fields hold. *)
Theorem bad_image_stores_nothing db request now pk img :
  art_hero_image (req_POST request) = Some img ->
  bad_image img ->
  let created := create_article db request now in
  let edited := edit_article db request pk in
  db_after created = db /\ db_after edited = db
  /\ ~ In (SUCCESS, "Article created successfully") (messages created)
  /\ ~ In (SUCCESS, "Article updated successfully") (messages edited).
Proof.
  intros Himg Hbad created edited. subst created edited.
  assert (Hinvalid : ArticleForm_is_valid (req_POST request) = None).
  { unfold ArticleForm_is_valid.
    rewrite Himg, (clean_hero_image_bad img Hbad).
    now destruct (art_fields (req_POST request)). }
  unfold create_article, edit_article. rewrite Hinvalid.
  destruct_tests; simpl; repeat split; intuition discriminate.
Qed.

Lemma bad_image_stores_nothing_witness :
  let request :=
    mkRequest (Some alice) POST
      (mkArticlePOST (Some story_fields) (Some wrong_type)) in
  db_after (create_article newsroom request 50) = newsroom
  /\ db_after (edit_article newsroom request 1) = newsroom.
Proof.
  pose proof (bad_image_stores_nothing newsroom
                (mkRequest (Some alice) POST
                   (mkArticlePOST (Some story_fields) (Some wrong_type)))
                50 1 wrong_type eq_refl) as H.
  simpl in H. split; apply H; left; exists "text/html";
    (split; [reflexivity|]);
    simpl; intuition discriminate.
Defined.

(** ** Article lists *)

Lemma length_get_page {A} (l : list A) per_page number :
  List.length (get_page l per_page number) <= per_page.
Proof. unfold get_page. apply firstn_le_length. Qed.

Lemma editor_not_reader_journalist u :
  User.is_editor u = true ->
  User.is_reader u = false /\ User.is_journalist u = false.
Proof.
  unfold User.is_editor, User.is_reader, User.is_journalist.
  now destruct (User.role u).
Qed.

Lemma editor_links_nonempty db publisher : editor_links db publisher <> [].
Proof.
  unfold editor_links. destruct publisher as [p|]; [|discriminate].
  destruct (filter _ (publisher_editors db)); discriminate.
Qed.

Lemma in_editor_links db publisher u :
  In (Some (User.pk u)) (editor_links db publisher) ->
  isEditorOf db u publisher = true.
Proof.
  unfold editor_links, isEditorOf, editors_exists.
  destruct publisher as [p|]; [|intros [H | []]; discriminate].
  destruct (filter (fun pe => fst pe =? p) (publisher_editors db))
    as [|x xs] eqn:E; [intros [H | []]; discriminate|].
  rewrite <- E. intros H. apply in_map_iff in H as (pe & Hpe & Hin).
  injection Hpe as Hk. apply filter_In in Hin as [Hin Hp].
  apply existsb_exists. exists pe. split; [exact Hin|].
  rewrite Hp, Hk. now rewrite Nat.eqb_refl.
Qed.

(** X11. The article list of an editor: every page holds at most ten
    rows, each a stored article that is pending or belongs to a publisher
    having the editor among its editors; and every pending article, of any
    publisher or of none, is in the list. *)
Theorem article_list_editor db u page :
  User.is_editor u = true ->
  let shown := get_page (article_list_queryset db u) 10 page in
  List.length shown <= 10
  /\ (forall a, In a shown ->
        In a (articles db)
        /\ (Article.status a = Status.pending
            \/ isEditorOf db u (Article.publisher a) = true))
  /\ (forall a, In a (articles db) -> Article.status a = Status.pending ->
        In a (article_list_queryset db u)).
Proof.
  intros He shown. subst shown.
  destruct (editor_not_reader_journalist u He) as [Hr Hj].
  unfold article_list_queryset. rewrite Hr, Hj, He.
  split; [apply length_get_page|]. split.
  - intros a Ha. apply in_get_page in Ha. unfold editor_queryset in Ha.
    apply in_flat_map in Ha as (a0 & Ha0 & Hmap).
    apply in_map_iff in Hmap as (e & <- & He0).
    apply filter_In in He0 as [Hlink Htest]. split; [exact Ha0|].
    apply orb_true_iff in Htest as [Hk | Hp].
    + right. destruct e as [k|]; [|discriminate].
      apply Nat.eqb_eq in Hk. subst k.
      apply in_editor_links in Hlink. exact Hlink.
    + left. now apply Status_eqb_eq.
  - intros a Ha Hp. unfold editor_queryset. apply in_flat_map.
    exists a. split; [exact Ha|].
    apply Status_eqb_eq in Hp. rewrite Hp.
    rewrite filter_all by (intros x _; apply orb_true_r).
    pose proof (editor_links_nonempty db (Article.publisher a)) as Hne.
    destruct (editor_links db (Article.publisher a)); [contradiction|].
    now left.
Qed.

Lemma article_list_editor_witness :
  let shown := get_page (article_list_queryset newsroom eve) 10 None in
  List.length shown <= 10
  /\ (forall a, In a shown ->
        In a (articles newsroom)
        /\ (Article.status a = Status.pending
            \/ isEditorOf newsroom eve (Article.publisher a) = true))
  /\ (forall a, In a (articles newsroom) ->
        Article.status a = Status.pending ->
        In a (article_list_queryset newsroom eve)).
Proof.
  exact (article_list_editor newsroom eve None eq_refl).
Defined.

(** X12. The article list of a journalist is the journalist's own
    articles: every row shown was written by the journalist, whatever
    its status, and every article the journalist wrote is in the list. *)
Theorem article_list_journalist db u page :
  User.is_journalist u = true ->
  (forall a, In a (get_page (article_list_queryset db u) 10 page) ->
     In a (articles db) /\ Article.author a = User.pk u)
  /\ (forall a, In a (articles db) -> Article.author a = User.pk u ->
        In a (article_list_queryset db u)).
Proof.
  intros Hj.
  assert (Hr : User.is_reader u = false).
  { unfold User.is_reader, User.is_journalist in *.
    now destruct (User.role u). }
  unfold article_list_queryset. rewrite Hr, Hj. split.
  - intros a Ha. apply in_get_page, filter_In in Ha as [Hin Hau].
    split; [exact Hin | now apply Nat.eqb_eq].
  - intros a Hin Hau. apply filter_In. split; [exact Hin|].
    now apply Nat.eqb_eq.
Qed.

Lemma article_list_journalist_witness :
  (forall a, In a (get_page (article_list_queryset newsroom alice) 10 None) ->
     In a (articles newsroom) /\ Article.author a = 1)
  /\ (forall a, In a (articles newsroom) -> Article.author a = 1 ->
        In a (article_list_queryset newsroom alice)).
Proof.
  exact (article_list_journalist newsroom alice None eq_refl).
Defined.

(** ** Newsletter lists *)

Lemma firstn_sorted_complete n l x :
  StronglySorted newer_first l ->
  In x l ->
  In x (firstn n l)
  \/ (List.length (firstn n l) = n
      /\ forall m, In m (firstn n l) ->
           Newsletter.created_at x <= Newsletter.created_at m).
Proof.
  intros Hsorted Hx. rewrite <- (firstn_skipn n l) in Hx.
  apply in_app_or in Hx as [Hx | Hx]; [now left | right]. split.
  - rewrite length_firstn.
    destruct (Nat.le_gt_cases (List.length l) n) as [Hle | Hgt]; [|lia].
    rewrite (skipn_all2 l Hle) in Hx. contradiction.
  - intros m Hm. exact (StronglySorted_split newer_first n l m x Hsorted Hm Hx).
Qed.

(** X13. A journalist's newsletter list is exactly the newsletters the
    journalist wrote, all of them, newest first; subscriptions play no
    part and there is no cap. *)
Theorem newsletter_list_journalist db u :
  User.is_journalist u = true ->
  let nls := newsletter_list_queryset db (Some u) in
  (forall n, In n nls
             <-> In n (newsletters db) /\ Newsletter.author n = User.pk u)
  /\ StronglySorted newer_first nls
  /\ List.length nls
     = List.length (filter (fun n => Newsletter.author n =? User.pk u)
                           (newsletters db)).
Proof.
  intros Hj nls. subst nls. unfold newsletter_list_queryset. rewrite Hj.
  split; [|split].
  - intros n. split.
    + intros H. apply (Permutation_in _ (order_by_perm _)) in H.
      apply filter_In in H as [H1 H2]. split; [exact H1|].
      now apply Nat.eqb_eq.
    + intros [H1 H2].
      apply (Permutation_in _ (Permutation_sym (order_by_perm _))).
      apply filter_In. split; [exact H1 | now apply Nat.eqb_eq].
  - apply order_by_sorted.
  - apply Permutation_length, order_by_perm.
Qed.

Lemma newsletter_list_journalist_witness :
  let nls := newsletter_list_queryset newsroom_subscribed (Some bob) in
  (forall n, In n nls
             <-> In n (newsletters newsroom_subscribed)
                 /\ Newsletter.author n = 2)
  /\ StronglySorted newer_first nls
  /\ List.length nls = 1.
Proof.
  exact (newsletter_list_journalist newsroom_subscribed bob eq_refl).
Defined.

(** X14. A requester who is neither a journalist nor a reader, logged in
    or not, is shown the 20 newest newsletters of the whole table: at most
    20 rows, all stored, newest first, and a stored newsletter is left out
    only when 20 rows at least as new are shown. *)
Theorem newsletter_list_public db user :
  (forall u, user = Some u ->
             User.is_journalist u = false /\ User.is_reader u = false) ->
  let nls := newsletter_list_queryset db user in
  List.length nls <= 20
  /\ (forall n, In n nls -> In n (newsletters db))
  /\ StronglySorted newer_first nls
  /\ (forall n, In n (newsletters db) ->
        In n nls
        \/ (List.length nls = 20
            /\ forall m, In m nls ->
                 Newsletter.created_at n <= Newsletter.created_at m)).
Proof.
  intros Hrole nls.
  assert (Hnls : nls = firstn 20 (order_by_created_at_desc (newsletters db))).
  { subst nls. unfold newsletter_list_queryset.
    destruct user as [u|]; [|reflexivity].
    destruct (Hrole u eq_refl) as [Hj Hr]. now rewrite Hj, Hr. }
  rewrite Hnls. split; [apply firstn_le_length|]. split; [|split].
  - intros n Hn. apply in_firstn in Hn.
    now apply (Permutation_in _ (order_by_perm _)) in Hn.
  - apply StronglySorted_firstn, order_by_sorted.
  - intros n Hn. apply firstn_sorted_complete; [apply order_by_sorted|].
    now apply (Permutation_in _ (Permutation_sym (order_by_perm _))).
Qed.

Lemma newsletter_list_public_witness :
  let nls := newsletter_list_queryset newsroom (Some erin) in
  List.length nls <= 20
  /\ (forall n, In n nls -> In n (newsletters newsroom))
  /\ StronglySorted newer_first nls
  /\ (forall n, In n (newsletters newsroom) ->
        In n nls
        \/ (List.length nls = 20
            /\ forall m, In m nls ->
                 Newsletter.created_at n <= Newsletter.created_at m)).
Proof.
  apply (newsletter_list_public newsroom (Some erin)).
  intros u [= <-]. split; reflexivity.
Defined.

(** ** Managing a publisher's team *)

Lemma first_by_pk_in {A} (pk_of : A -> nat) l x :
  first_by_pk pk_of l = Some x -> In x l.
Proof.
  revert x. induction l as [|y ys IH]; simpl; [discriminate|].
  intros x. destruct (first_by_pk pk_of ys) as [z|].
  - destruct (pk_of y <=? pk_of z); intros [= <-]; auto.
  - intros [= <-]. now left.
Qed.

Lemma objects_get_one {A} (lookup : A -> bool) table row :
  objects_get lookup table = GetOne row ->
  In row table /\ lookup row = true.
Proof.
  unfold objects_get.
  destruct (filter lookup table) as [|x [|y ys]] eqn:E; try discriminate.
  intros [= <-]. apply filter_In. rewrite E. now left.
Qed.

Lemma owned_publishers_in db u p :
  In p (owned_publishers db u) ->
  In p (publishers db) /\ Publisher.owner p = Some (User.pk u).
Proof.
  unfold owned_publishers. intros H. apply filter_In in H as [Hin Ho].
  split; [exact Hin|]. unfold option_nat_eqb in Ho.
  destruct (Publisher.owner p) as [k|]; [|discriminate].
  apply Nat.eqb_eq in Ho. now subst.
Qed.

(** What [add_team_member] can do to the database: nothing, or one new
    pair on the list that matches the role of the user it names. *)
Lemma add_team_member_shape db publisher username role :
  stored (add_team_member db publisher username role) = db
  \/ exists member,
       In member (users db)
       /\ User.username member = username
       /\ ((role = AsEditor
            /\ User.role member = Role.editor
            /\ editors_exists db (Publisher.pk publisher) (User.pk member)
               = false
            /\ stored (add_team_member db publisher username role)
               = set_publisher_editors db
                   (publisher_editors db
                    ++ [(Publisher.pk publisher, User.pk member)]))
           \/ (role = AsJournalist
               /\ User.role member = Role.journalist
               /\ journalists_exists db (Publisher.pk publisher)
                    (User.pk member) = false
               /\ stored (add_team_member db publisher username role)
                  = set_publisher_journalists db
                      (publisher_journalists db
                       ++ [(Publisher.pk publisher, User.pk member)]))).
Proof.
  unfold add_team_member.
  destruct (objects_get _ (users db)) as [member| |] eqn:Hget;
    try (now left).
  apply objects_get_one in Hget as [Hin Hname].
  apply String.eqb_eq in Hname.
  destruct role.
  - destruct (Role.eqb (User.role member) Role.editor) eqn:Hrole;
      [|now left]. cbn [negb].
    destruct (editors_exists db (Publisher.pk publisher) (User.pk member))
      eqn:Hex; [now left|].
    right. exists member. apply Role_eqb_eq in Hrole.
    split; [exact Hin|]. split; [exact Hname|]. left. auto.
  - destruct (Role.eqb (User.role member) Role.journalist) eqn:Hrole;
      [|now left]. cbn [negb].
    destruct (journalists_exists db (Publisher.pk publisher) (User.pk member))
      eqn:Hex; [now left|].
    right. exists member. apply Role_eqb_eq in Hrole.
    split; [exact Hin|]. split; [exact Hname|]. right. auto.
Qed.

(** X15. The dashboard changes the database only for a requester with the
    publisher role, and then only the team of a publisher that requester
    owns: it appends one user to that publisher's editors, a user whose
    role is editor and who was not on the list, or one user to its
    journalists, a user whose role is journalist and who was not on the
    list. *)
Theorem publisher_dashboard_only_owner db request :
  stored (publisher_dashboard db request) <> db ->
  exists u publisher member,
    req_user request = Some u
    /\ User.is_publisher u = true
    /\ In publisher (publishers db)
    /\ Publisher.owner publisher = Some (User.pk u)
    /\ In member (users db)
    /\ ((User.role member = Role.editor
         /\ editors_exists db (Publisher.pk publisher) (User.pk member)
            = false
         /\ stored (publisher_dashboard db request)
            = set_publisher_editors db
                (publisher_editors db
                 ++ [(Publisher.pk publisher, User.pk member)]))
        \/ (User.role member = Role.journalist
            /\ journalists_exists db (Publisher.pk publisher)
                 (User.pk member) = false
            /\ stored (publisher_dashboard db request)
               = set_publisher_journalists db
                   (publisher_journalists db
                    ++ [(Publisher.pk publisher, User.pk member)]))).
Proof.
  unfold publisher_dashboard. intros Hne.
  destruct (req_user request) as [u|]; [|now contradiction Hne].
  destruct (User.is_publisher u) eqn:Hpub; [|now contradiction Hne].
  cbn [negb] in *.
  destruct (first_by_pk Publisher.pk (owned_publishers db u))
    as [publisher|] eqn:Hfirst; [|now contradiction Hne].
  apply first_by_pk_in, owned_publishers_in in Hfirst as [Hin Hown].
  destruct (req_method request); [now contradiction Hne|].
  destruct (add_member (req_POST request)); [|now contradiction Hne].
  destruct (AddTeamMemberForm_is_valid (req_POST request))
    as [[username role]|]; [|now contradiction Hne].
  destruct (add_team_member_shape db publisher username role)
    as [Hsame | (member & Hm & _ & Hshape)]; [contradiction|].
  exists u, publisher, member.
  split; [reflexivity|]. split; [exact Hpub|]. split; [exact Hin|].
  split; [exact Hown|]. split; [exact Hm|].
  destruct Hshape as [(_ & H1 & H2 & H3) | (_ & H1 & H2 & H3)];
    [left | right]; auto.
Qed.

Lemma publisher_dashboard_only_owner_witness :
  exists u publisher member,
    Some pat = Some u
    /\ User.is_publisher u = true
    /\ In publisher (publishers owned_newsroom)
    /\ Publisher.owner publisher = Some (User.pk u)
    /\ In member (users owned_newsroom)
    /\ ((User.role member = Role.editor
         /\ editors_exists owned_newsroom (Publisher.pk publisher)
              (User.pk member) = false
         /\ stored (publisher_dashboard owned_newsroom
                      (mkRequest (Some pat) POST add_eve))
            = set_publisher_editors owned_newsroom
                (publisher_editors owned_newsroom
                 ++ [(Publisher.pk publisher, User.pk member)]))
        \/ (User.role member = Role.journalist
            /\ journalists_exists owned_newsroom (Publisher.pk publisher)
                 (User.pk member) = false
            /\ stored (publisher_dashboard owned_newsroom
                         (mkRequest (Some pat) POST add_eve))
               = set_publisher_journalists owned_newsroom
                   (publisher_journalists owned_newsroom
                    ++ [(Publisher.pk publisher, User.pk member)]))).
Proof.
  apply (publisher_dashboard_only_owner owned_newsroom
           (mkRequest (Some pat) POST add_eve)).
  intros H.
  apply (f_equal (fun d => List.length (publisher_editors d))) in H.
  discriminate H.
Defined.

Lemma existsb_app_last {A} (f : A -> bool) l x :
  f x = true -> existsb f (l ++ [x]) = true.
Proof.
  intros H. rewrite existsb_app. simpl. rewrite H. apply orb_true_iff.
  right. reflexivity.
Qed.

(** X16. Adding a team member is idempotent: sending the dashboard the
    same request again never changes the database a second time, and the
    second answer reports no addition. *)
Theorem publisher_dashboard_twice db request :
  let first := publisher_dashboard db request in
  let second := publisher_dashboard (stored first) request in
  stored second = stored first
  /\ forall m, In m (queued second) -> fst m <> SUCCESS.
Proof.
  intros first second. subst first second. unfold publisher_dashboard.
  destruct (req_user request) as [u|];
    [|split; [reflexivity | intros m []]].
  destruct (negb (User.is_publisher u));
    [split; [reflexivity | intros m [<- | []]; discriminate]|].
  destruct (first_by_pk Publisher.pk (owned_publishers db u))
    as [publisher|] eqn:Hfirst;
    [|cbn [stored]; rewrite Hfirst;
      split; [reflexivity | intros m [<- | []]; discriminate]].
  destruct (req_method request);
    [cbn [stored]; rewrite Hfirst; split; [reflexivity | intros m []]|].
  destruct (add_member (req_POST request));
    [|cbn [stored]; rewrite Hfirst; split; [reflexivity | intros m []]].
  destruct (AddTeamMemberForm_is_valid (req_POST request))
    as [[username role]|];
    [|cbn [stored]; rewrite Hfirst; split; [reflexivity | intros m []]].
  assert (Hsame : first_by_pk Publisher.pk
                    (owned_publishers
                       (stored (add_team_member db publisher username role)) u)
                  = Some publisher).
  { rewrite <- Hfirst. unfold add_team_member.
    destruct (objects_get _ (users db)); [|reflexivity|reflexivity].
    destruct role; destruct_tests; reflexivity. }
  rewrite Hsame. clear Hsame Hfirst. unfold add_team_member.
  destruct (objects_get (fun u0 => String.eqb (User.username u0) username)
              (users db)) as [member| |] eqn:Hget.
  - destruct role.
    + destruct (Role.eqb (User.role member) Role.editor) eqn:Hrole;
        cbn [negb stored team_redirect users].
      * destruct (editors_exists db (Publisher.pk publisher) (User.pk member))
          eqn:Hex; cbn [stored team_redirect users set_publisher_editors];
          rewrite Hget, Hrole; cbn [negb].
        -- rewrite Hex. split; [reflexivity|].
           intros m [<- | []]; discriminate.
        -- assert (Hnow :
             editors_exists
               (set_publisher_editors db
                  (publisher_editors db
                   ++ [(Publisher.pk publisher, User.pk member)]))
               (Publisher.pk publisher) (User.pk member) = true).
           { unfold editors_exists. cbn [publisher_editors
                                         set_publisher_editors].
             apply existsb_app_last. simpl. now rewrite !Nat.eqb_refl. }
           rewrite Hnow. split; [reflexivity|].
           intros m [<- | []]; discriminate.
      * rewrite Hget, Hrole. split; [reflexivity|].
        intros m [<- | []]; discriminate.
    + destruct (Role.eqb (User.role member) Role.journalist) eqn:Hrole;
        cbn [negb stored team_redirect users].
      * destruct (journalists_exists db (Publisher.pk publisher)
                    (User.pk member))
          eqn:Hex; cbn [stored team_redirect users set_publisher_journalists];
          rewrite Hget, Hrole; cbn [negb].
        -- rewrite Hex. split; [reflexivity|].
           intros m [<- | []]; discriminate.
        -- assert (Hnow :
             journalists_exists
               (set_publisher_journalists db
                  (publisher_journalists db
                   ++ [(Publisher.pk publisher, User.pk member)]))
               (Publisher.pk publisher) (User.pk member) = true).
           { unfold journalists_exists. cbn [publisher_journalists
                                             set_publisher_journalists].
             apply existsb_app_last. simpl. now rewrite !Nat.eqb_refl. }
           rewrite Hnow. split; [reflexivity|].
           intros m [<- | []]; discriminate.
      * rewrite Hget, Hrole. split; [reflexivity|].
        intros m [<- | []]; discriminate.
  - cbn [stored team_redirect]. rewrite Hget. split; [reflexivity|].
    intros m [<- | []]; discriminate.
  - cbn [stored]. rewrite Hget. split; [reflexivity | intros m []].
Qed.

(** Adding Eve twice: added once, then reported as already there. *)
Example publisher_dashboard_add_eve :
  let first := publisher_dashboard owned_newsroom
                 (mkRequest (Some pat) POST add_eve) in
  let second := publisher_dashboard (stored first)
                  (mkRequest (Some pat) POST add_eve) in
  queued first = [(SUCCESS, "Added eve as editor.")]
  /\ publisher_editors (stored first) = [(1, 3); (1, 4)]
  /\ queued second = [(WARNING, "eve is already an editor.")]
  /\ publisher_editors (stored second) = [(1, 3); (1, 4)].
Proof. vm_compute. repeat split. Qed.

(** X17. The dashboard keeps the team lists consistent with the roles: if
    every listed editor has the editor role and every listed journalist
    the journalist role, the same holds after any request to the
    dashboard. *)
Theorem publisher_dashboard_team_roles db request :
  team_roles_ok db -> team_roles_ok (stored (publisher_dashboard db request)).
Proof.
  intros Hok. unfold publisher_dashboard.
  destruct (req_user request) as [u|]; [|exact Hok].
  destruct (negb (User.is_publisher u)); [exact Hok|].
  destruct (first_by_pk Publisher.pk (owned_publishers db u))
    as [publisher|]; [|exact Hok].
  destruct (req_method request); [exact Hok|].
  destruct (add_member (req_POST request)); [|exact Hok].
  destruct (AddTeamMemberForm_is_valid (req_POST request))
    as [[username role]|]; [|exact Hok].
  destruct (add_team_member_shape db publisher username role)
    as [-> | (member & Hm & _ & Hshape)]; [exact Hok|].
  destruct Hok as [Hed Hjo].
  destruct Hshape as [(_ & Hrole & _ & ->) | (_ & Hrole & _ & ->)];
    split; simpl; auto.
  - intros p k Hin. apply in_app_or in Hin as [Hin | [[= <- <-] | []]];
      [now apply Hed with p | eauto].
  - intros p k Hin. apply in_app_or in Hin as [Hin | [[= <- <-] | []]];
      [now apply Hjo with p | eauto].
Qed.

Lemma publisher_dashboard_team_roles_witness :
  team_roles_ok
    (stored (publisher_dashboard owned_newsroom
               (mkRequest (Some pat) POST add_eve))).
Proof.
  apply publisher_dashboard_team_roles. split; intros p k Hin; simpl in Hin.
  - destruct Hin as [[= <- <-] | []]. exists erin. simpl. auto.
  - destruct Hin as [[= <- <-] | []]. exists alice. simpl. auto.
Defined.

(** ** Logging in *)

(** X18. [user_login] logs a user in, replacing the user of the session
    and saving a [last_login], only on a POST naming a stored user whose
    password check accepts the submitted password; the session then belongs
    to that user and it is that user's [last_login] that is saved. Every
    other request keeps the session and saves no [last_login]. *)
Theorem user_login_needs_password check_password db request :
  let r := user_login check_password db request in
  (session_user r <> req_user request \/ last_login_saved r <> None ->
   exists user name,
     req_method request = POST
     /\ login_username (req_POST request) = Some name
     /\ In user (users db)
     /\ User.username user = name
     /\ check_password user (login_password (req_POST request)) = true
     /\ session_user r = Some user
     /\ last_login_saved r = Some (User.pk user)).
Proof.
  intros r. subst r. unfold user_login.
  destruct (req_method request); [now intros [[] | []]|].
  destruct (objects_get _ (users db)) as [user| |] eqn:Hget;
    try (now intros [[] | []]).
  apply objects_get_one in Hget as [Hin Hname].
  destruct (check_password user (login_password (req_POST request))) eqn:Hpw;
    [|now intros [[] | []]].
  intros _.
  destruct (login_username (req_POST request)) as [name|]; [|discriminate].
  apply String.eqb_eq in Hname. exists user, name. repeat split; auto.
Qed.

(** Rita logs in with her password; Rob is logged in no more. *)
Lemma user_login_needs_password_witness :
  let r := user_login name_is_password newsroom
             (mkRequest (Some rob) POST
                (mkLoginPOST (Some "rita") (Some "rita"))) in
  exists user name,
    POST = POST
    /\ Some "rita" = Some name
    /\ In user (users newsroom)
    /\ User.username user = name
    /\ name_is_password user (Some "rita") = true
    /\ session_user r = Some user
    /\ last_login_saved r = Some (User.pk user).
Proof.
  apply (user_login_needs_password name_is_password newsroom
           (mkRequest (Some rob) POST
              (mkLoginPOST (Some "rita") (Some "rita")))).
  right. discriminate.
Defined.

(** X19. The login page tells whether a user name exists: a wrong password
    for the one user of that name is answered "Invalid password", a name
    no user has "User does not exist"; neither attempt logs anybody in. *)
Theorem user_login_reveals_username check_password db who known unknown
    password user :
  filter (fun u => String.eqb (User.username u) known) (users db) = [user] ->
  check_password user password = false ->
  (forall u, In u (users db) -> User.username u <> unknown) ->
  let try name :=
    user_login check_password db
      (mkRequest who POST (mkLoginPOST (Some name) password)) in
  queued (login_reply (try known)) = [(ERROR, "Invalid password")]
  /\ queued (login_reply (try unknown)) = [(ERROR, "User does not exist")]
  /\ session_user (try known) = who
  /\ session_user (try unknown) = who.
Proof.
  intros Hone Hpw Hnone try. subst try. unfold user_login.
  cbn [req_method req_POST req_user login_username login_password].
  rewrite (objects_get_none (fun u => String.eqb (User.username u) unknown)).
  2:{ intros x Hx. apply String.eqb_neq. now apply Hnone. }
  unfold objects_get. rewrite Hone, Hpw. repeat split.
Qed.

Lemma user_login_reveals_username_witness :
  let try name :=
    user_login name_is_password newsroom
      (mkRequest None POST (mkLoginPOST (Some name) (Some "guess"))) in
  queued (login_reply (try "rita")) = [(ERROR, "Invalid password")]
  /\ queued (login_reply (try "nobody")) = [(ERROR, "User does not exist")]
  /\ session_user (try "rita") = None
  /\ session_user (try "nobody") = None.
Proof.
  apply (user_login_reveals_username name_is_password newsroom None
           "rita" "nobody" (Some "guess") rita).
  - reflexivity.
  - reflexivity.
  - intros u Hu. simpl in Hu.
    repeat (destruct Hu as [<- | Hu]; [discriminate|]). contradiction.
Defined.

(** ** Resetting a password *)

Lemma ResetPasswordForm_is_valid_some p password :
  ResetPasswordForm_is_valid p = Some password ->
  new_password1 p = password /\ new_password2 p = password
  /\ 8 <= utf8_length password.
Proof.
  unfold ResetPasswordForm_is_valid.
  destruct (8 <=? utf8_length (new_password1 p)) eqn:Hlen; [|discriminate].
  destruct (String.eqb (new_password2 p) EmptyString); [discriminate|].
  destruct (String.eqb (new_password1 p) (new_password2 p)) eqn:Heq;
    [|discriminate].
  intros [= <-]. apply String.eqb_eq in Heq. apply Nat.leb_le in Hlen.
  auto.
Qed.

(** X20. [reset_password] either sets no password and leaves the database
    as it is, or it was sent, with POST, a stored token that is valid and
    two equal passwords of at least 8 characters (characters as Python
    counts them, not bytes): it then sets that password for the user of
    the token and marks the tokens with that string as used, keeping every
    other token. *)
Theorem reset_password_cases is_valid db request token :
  let r := reset_password is_valid db request token in
  (password_set r = None /\ stored (reset_reply r) = db)
  \/ exists t password,
       In t (reset_tokens db)
       /\ PasswordResetToken.token t = token
       /\ is_valid t = true
       /\ req_method request = POST
       /\ new_password1 (req_POST request) = password
       /\ new_password2 (req_POST request) = password
       /\ 8 <= utf8_length password
       /\ password_set r = Some (PasswordResetToken.user t, password)
       /\ reset_tokens (stored (reset_reply r))
          = map (fun x => if String.eqb (PasswordResetToken.token x) token
                          then mark_used x else x)
                (reset_tokens db).
Proof.
  intros r. subst r. unfold reset_password.
  destruct (objects_get _ (reset_tokens db)) as [t| |] eqn:Hget;
    try (now left).
  apply objects_get_one in Hget as [Hin Htok]. apply String.eqb_eq in Htok.
  destruct (is_valid t) eqn:Hvalid; [|now left]. cbn [negb].
  destruct (req_method request); [now left|].
  destruct (ResetPasswordForm_is_valid (req_POST request)) as [password|]
    eqn:Hform; [|now left].
  apply ResetPasswordForm_is_valid_some in Hform as (H1 & H2 & H3).
  right. exists t, password. repeat split; auto.
Qed.

(** Four accented letters are eight bytes and four characters: too short
    a password, and the reset sets nothing. *)
Example reset_password_accents :
  let password := repeat_string 4 e_acute in
  let r := reset_password unused one_token
             (mkRequest None POST (mkResetPOST password password)) "tok" in
  ResetPasswordForm_is_valid (mkResetPOST password password) = None
  /\ password_set r = None
  /\ stored (reset_reply r) = one_token.
Proof. vm_compute. repeat split. Qed.

Lemma filter_map_same {A} (f : A -> bool) (g : A -> A) l :
  (forall x, f (g x) = f x) -> filter f (map g l) = map g (filter f l).
Proof.
  intros H. induction l as [|x xs IH]; simpl; [reflexivity|].
  rewrite H. destruct (f x); simpl; now rewrite IH.
Qed.

(** X21. A reset token is good for one reset: where [is_valid] refuses
    used tokens, a request that set a password leaves the token refused,
    so that any later request with it sets no password, changes nothing
    and is answered "Invalid or expired reset token." *)
Theorem reset_password_single_use is_valid db request token request' :
  (forall t, PasswordResetToken.is_used t = true -> is_valid t = false) ->
  password_set (reset_password is_valid db request token) <> None ->
  let db' := stored (reset_reply (reset_password is_valid db request token)) in
  let again := reset_password is_valid db' request' token in
  password_set again = None
  /\ stored (reset_reply again) = db'
  /\ queued (reset_reply again) = [(ERROR, "Invalid or expired reset token.")].
Proof.
  intros Hused Hset db' again. subst again db'.
  unfold reset_password in *.
  destruct (objects_get (fun t => String.eqb (PasswordResetToken.token t) token)
              (reset_tokens db)) as [t| |] eqn:Hget;
    try (now contradiction Hset).
  destruct (negb (is_valid t)); [now contradiction Hset|].
  destruct (req_method request); [now contradiction Hset|].
  destruct (ResetPasswordForm_is_valid (req_POST request));
    [|now contradiction Hset].
  cbn [stored reset_reply reset_tokens set_reset_tokens].
  assert (Hagain :
    objects_get (fun x => String.eqb (PasswordResetToken.token x) token)
      (map (fun x => if String.eqb (PasswordResetToken.token x) token
                     then mark_used x else x)
           (reset_tokens db))
    = GetOne (mark_used t)).
  { unfold objects_get in *. rewrite filter_map_same.
    - destruct (filter _ (reset_tokens db)) as [|x [|y ys]] eqn:E;
        try discriminate.
      injection Hget as ->. simpl.
      assert (Ht : In t (filter
                           (fun x => String.eqb (PasswordResetToken.token x)
                                                token)
                           (reset_tokens db))) by (rewrite E; now left).
      apply filter_In in Ht as [_ Ht]. now rewrite Ht.
    - intros x.
      destruct (String.eqb (PasswordResetToken.token x) token) eqn:E;
        [exact E | exact E]. }
  rewrite Hagain, (Hused (mark_used t) eq_refl). repeat split.
Qed.

Lemma reset_password_single_use_witness :
  let request := mkRequest None POST (mkResetPOST "s3cretpass" "s3cretpass") in
  let db' := stored (reset_reply (reset_password unused one_token request
                                    "tok")) in
  let again := reset_password unused db' request "tok" in
  password_set again = None
  /\ stored (reset_reply again) = db'
  /\ queued (reset_reply again) = [(ERROR, "Invalid or expired reset token.")].
Proof.
  apply (reset_password_single_use unused one_token
           (mkRequest None POST (mkResetPOST "s3cretpass" "s3cretpass")) "tok").
  - intros t Ht. unfold unused. now rewrite Ht.
  - discriminate.
Defined.

Lemma filter_none {A} (f : A -> bool) l :
  (forall x, In x l -> f x = false) -> filter f l = [].
Proof.
  induction l as [|x xs IH]; simpl; intros H; [reflexivity|].
  rewrite (H x (or_introl eq_refl)). apply IH. auto.
Qed.

(** X22. The token a reset request stores opens the reset for the account
    of the submitted address: if the token string is new and valid, a POST
    of two equal passwords of at least 8 characters with that token sets
    the password of exactly that account. *)
Theorem forgot_then_reset is_valid db who env email u request password :
  filter (fun x => String.eqb (User.email x) email) (users db) = [u] ->
  (forall t, In t (reset_tokens db) ->
             PasswordResetToken.token t <> fresh_token env) ->
  is_valid (PasswordResetToken.mk (User.pk u) (fresh_token env)
              (reset_now env) false) = true ->
  req_method request = POST ->
  ResetPasswordForm_is_valid (req_POST request) = Some password ->
  let asked :=
    db_after (outcome (forgot_password db (mkRequest who POST (Some email))
                         env)) in
  password_set (reset_password is_valid asked request (fresh_token env))
  = Some (User.pk u, password).
Proof.
  intros Hone Hnew Hvalid Hm Hform asked.
  assert (Hasked :
    reset_tokens asked
    = reset_tokens db
      ++ [PasswordResetToken.mk (User.pk u) (fresh_token env)
            (reset_now env) false]).
  { subst asked. unfold forgot_password. cbn [req_method req_POST].
    assert (Hget : objects_get (fun x => String.eqb (User.email x) email)
                     (users db) = GetOne u)
      by (unfold objects_get; now rewrite Hone).
    rewrite Hget. now destruct (send_mail_error env). }
  unfold reset_password. rewrite Hasked.
  assert (Hget :
    objects_get
      (fun t => String.eqb (PasswordResetToken.token t) (fresh_token env))
      (reset_tokens db
       ++ [PasswordResetToken.mk (User.pk u) (fresh_token env)
             (reset_now env) false])
    = GetOne (PasswordResetToken.mk (User.pk u) (fresh_token env)
                (reset_now env) false)).
  { unfold objects_get. rewrite filter_app.
    rewrite (filter_none _ (reset_tokens db))
      by (intros t Ht; apply String.eqb_neq; now apply Hnew).
    simpl. now rewrite String.eqb_refl. }
  rewrite Hget, Hvalid, Hm, Hform. reflexivity.
Qed.

Lemma forgot_then_reset_witness :
  let asked :=
    db_after (outcome (forgot_password newsroom
                         (mkRequest None POST (Some "alice@burst.example"))
                         (mkResetEnv "tok" "https://burst.example" None 7))) in
  password_set
    (reset_password unused asked
       (mkRequest None POST (mkResetPOST "s3cretpass" "s3cretpass")) "tok")
  = Some (1, "s3cretpass").
Proof.
  apply (forgot_then_reset unused newsroom None
           (mkResetEnv "tok" "https://burst.example" None 7)
           "alice@burst.example" alice
           (mkRequest None POST (mkResetPOST "s3cretpass" "s3cretpass"))
           "s3cretpass");
    try reflexivity.
  intros t [].
Defined.

(** ** The feed and the sitemap *)

Section NewestFirst.
Context {A : Type} (key : A -> nat).

Lemma insert_newest_perm x l : Permutation (insert_newest key x l) (x :: l).
Proof.
  induction l as [|y ys IH]; simpl; [reflexivity|].
  destruct (key y <=? key x); [reflexivity|].
  rewrite IH. apply perm_swap.
Qed.

Lemma newest_first_perm l : Permutation (newest_first key l) l.
Proof.
  induction l as [|y ys IH]; simpl; [reflexivity|].
  rewrite insert_newest_perm. now constructor.
Qed.

Lemma insert_newest_sorted x l :
  StronglySorted (fun a b => key b <= key a) l ->
  StronglySorted (fun a b => key b <= key a) (insert_newest key x l).
Proof.
  induction 1 as [|y ys Hs IH Hall]; simpl.
  - repeat constructor.
  - destruct (key y <=? key x) eqn:E.
    + apply Nat.leb_le in E. constructor; [now constructor|].
      constructor; [exact E|].
      eapply Forall_impl; [|exact Hall]. simpl. intros z Hz. lia.
    + apply Nat.leb_gt in E. constructor; [exact IH|].
      eapply Permutation_Forall; [symmetry; apply insert_newest_perm|].
      constructor; [lia | exact Hall].
Qed.

Lemma newest_first_sorted l :
  StronglySorted (fun a b => key b <= key a) (newest_first key l).
Proof.
  induction l as [|y ys IH]; simpl; [constructor|].
  now apply insert_newest_sorted.
Qed.

Lemma firstn_newest_complete n l x :
  In x l ->
  In x (firstn n (newest_first key l))
  \/ (List.length (firstn n (newest_first key l)) = n
      /\ forall m, In m (firstn n (newest_first key l)) -> key x <= key m).
Proof.
  intros Hx.
  apply (Permutation_in _ (Permutation_sym (newest_first_perm l))) in Hx.
  rewrite <- (firstn_skipn n (newest_first key l)) in Hx.
  apply in_app_or in Hx as [Hx | Hx]; [now left | right]. split.
  - rewrite length_firstn.
    destruct (Nat.le_gt_cases (List.length (newest_first key l)) n)
      as [Hle | Hgt]; [|lia].
    rewrite (skipn_all2 _ Hle) in Hx. contradiction.
  - intros m Hm.
    exact (StronglySorted_split (fun a b => key b <= key a) n _ m x
             (newest_first_sorted l) Hm Hx).
Qed.
End NewestFirst.

Lemma in_published_articles db a :
  In a (published_articles db)
  <-> In a (articles db) /\ Article.status a = Status.published.
Proof.
  unfold published_articles. rewrite filter_In. now rewrite Status_eqb_eq.
Qed.

(** X23. The RSS feed lists published articles only, newest first and at
    most 50 of them; a published article is missing from it only when 50
    articles at least as new are listed. Drafts, pending and rejected
    articles never appear. *)
Theorem BurstArticleFeed_items_published db :
  let items := BurstArticleFeed_items db in
  List.length items <= 50
  /\ (forall a, In a items ->
        In a (articles db) /\ Article.status a = Status.published)
  /\ StronglySorted newer_article items
  /\ (forall a, In a (articles db) -> Article.status a = Status.published ->
        In a items
        \/ (List.length items = 50
            /\ forall m, In m items ->
                 Article.created_at a <= Article.created_at m)).
Proof.
  intros items. subst items. unfold BurstArticleFeed_items.
  split; [apply firstn_le_length|]. split; [|split].
  - intros a Ha. apply in_firstn in Ha.
    apply (Permutation_in _ (newest_first_perm _ _)) in Ha.
    now apply in_published_articles.
  - apply StronglySorted_firstn.
    exact (newest_first_sorted Article.created_at _).
  - intros a Ha Hp. apply firstn_newest_complete.
    now apply in_published_articles.
Qed.

(** X24. The sitemap lists exactly the published articles, each as often
    as it is stored, newest first and without a cap; every item of the
    feed has its entry in the sitemap. *)
Theorem ArticleSitemap_items_published db :
  Permutation (ArticleSitemap_items db) (published_articles db)
  /\ (forall a, In a (ArticleSitemap_items db)
                <-> In a (articles db) /\ Article.status a = Status.published)
  /\ StronglySorted newer_article (ArticleSitemap_items db)
  /\ (forall a, In a (BurstArticleFeed_items db) ->
                In a (ArticleSitemap_items db)).
Proof.
  assert (Hin : forall a, In a (ArticleSitemap_items db)
                          <-> In a (articles db)
                              /\ Article.status a = Status.published).
  { intros a. unfold ArticleSitemap_items. rewrite <- in_published_articles.
    split; apply Permutation_in;
      [apply newest_first_perm | symmetry; apply newest_first_perm]. }
  split; [apply newest_first_perm|]. split; [exact Hin|]. split.
  - exact (newest_first_sorted Article.created_at _).
  - intros a Ha. apply Hin. unfold BurstArticleFeed_items in Ha.
    apply in_firstn in Ha.
    apply (Permutation_in _ (newest_first_perm _ _)) in Ha.
    now apply in_published_articles.
Qed.

(** *** Characters and bytes *)

Lemma utf8_length_continuation c s :
  is_continuation c = true -> utf8_length (String c s) = utf8_length s.
Proof. intros H. simpl. now rewrite H. Qed.

Lemma utf8_length_start c s :
  is_continuation c = false -> utf8_length (String c s) = S (utf8_length s).
Proof. intros H. simpl. now rewrite H. Qed.

(** [text[:n]] of a text of more than [n] characters: the text splits
    into the slice, which has [n] characters, and a rest that begins with
    a character. *)
Lemma utf8_take_split n s :
  n < utf8_length s ->
  exists rest,
    s = String.append (utf8_take n s) rest
    /\ utf8_length (utf8_take n s) = n
    /\ starts_character rest = true.
Proof.
  revert n. induction s as [|c s IH]; intros n Hn; [simpl in Hn; lia|].
  destruct (is_continuation c) eqn:Hc.
  - rewrite (utf8_length_continuation _ _ Hc) in Hn.
    destruct (IH n Hn) as (rest & Hs & Hlen & Hrest).
    exists rest. cbn [utf8_take]. rewrite Hc. cbn [String.append].
    rewrite (utf8_length_continuation _ _ Hc). repeat split; congruence.
  - rewrite (utf8_length_start _ _ Hc) in Hn. destruct n as [|k].
    + exists (String c s). cbn [utf8_take]. rewrite Hc.
      cbn [String.append utf8_length starts_character]. rewrite Hc.
      repeat split.
    + destruct (IH k) as (rest & Hs & Hlen & Hrest); [lia|].
      exists rest. cbn [utf8_take]. rewrite Hc. cbn [String.append].
      rewrite (utf8_length_start _ _ Hc). repeat split; congruence.
Qed.

(** X25. The description of a feed item is the article's summary when it
    has one. Otherwise it is the content without its tags: unchanged when
    that has at most 500 characters, and when it has more, its first 500
    characters, which the rest of the text follows at a character
    boundary, and then an ellipsis. Characters are counted as Python
    counts them, a character of several bytes once. *)
Theorem item_description_cases strip_tags item :
  let text := strip_tags (Article.content item) in
  let description := item_description strip_tags item in
  (Article.summary item <> EmptyString ->
   description = Article.summary item)
  /\ (Article.summary item = EmptyString -> utf8_length text <= 500 ->
      description = text)
  /\ (Article.summary item = EmptyString -> 500 < utf8_length text ->
      exists head rest,
        text = String.append head rest
        /\ utf8_length head = 500
        /\ starts_character rest = true
        /\ description = String.append head "...").
Proof.
  intros text description. subst text description. unfold item_description.
  split; [|split].
  - intros Hs. apply String.eqb_neq in Hs. now rewrite Hs.
  - intros -> Hlen. rewrite String.eqb_refl. cbn [negb].
    apply Nat.ltb_ge in Hlen. now rewrite Hlen.
  - intros -> Hlen. rewrite String.eqb_refl. cbn [negb].
    destruct (utf8_take_split 500 _ Hlen) as (rest & Hs & Hhead & Hrest).
    apply Nat.ltb_lt in Hlen. rewrite Hlen.
    exists (utf8_take 500 (strip_tags (Article.content item))), rest.
    repeat split; assumption.
Qed.

(** A text of 501 accented letters, 1002 bytes, is cut after the 500th
    letter. *)
Lemma item_description_cases_witness :
  exists head rest,
    Article.content long_read = String.append head rest
    /\ utf8_length head = 500
    /\ starts_character rest = true
    /\ item_description no_tags long_read = String.append head "...".
Proof.
  apply (item_description_cases no_tags long_read).
  - reflexivity.
  - apply Nat.ltb_lt. reflexivity.
Defined.

(** What the feed shows for the two articles: 500 letters and the
    ellipsis for the long one, and the text of 300 letters, 600 bytes,
    as it is. *)
Example item_description_accents :
  item_description no_tags long_read
  = String.append (repeat_string 500 e_acute) "..."
  /\ item_description no_tags accented = Article.content accented
  /\ item_description no_tags printed = "Budget vote".
Proof. vm_compute. repeat split. Qed.

(** ** Subscriptions and the reader's newsletters *)

(** X26. Subscribing opens the target's newsletters to the reader: after a
    reader's subscribe request for a valid single target, every stored
    newsletter of that publisher, or by that journalist, is in the
    reader's newsletter list, unless the list already holds 50 newsletters
    at least as new. *)
Theorem subscribe_shows_newsletters db u t n :
  User.is_reader u = true ->
  valid_target db t = true ->
  List.length (key_rows db (User.pk u) t) <= 1 ->
  In n (newsletters db) ->
  by_target t n ->
  let nls :=
    newsletter_list_queryset (db_after (subscribe db u t)) (Some u) in
  In n nls
  \/ (List.length nls = 50
      /\ forall m, In m nls ->
           Newsletter.created_at n <= Newsletter.created_at m).
Proof.
  intros Hr Hv Hlen Hn Hby nls.
  set (db' := db_after (subscribe db u t)) in *.
  assert (Hnl : newsletters db' = newsletters db).
  { subst db'. unfold subscribe.
    destruct (subscription_management_shape db
                (mkRequest (Some u) POST (target_POST t)))
      as [-> | (_ & row & _ & _ & _ & _ & _ & _ & ->)]; reflexivity. }
  assert (Hsub : exists s, In s (subscriptions db')
                           /\ key_lookup (User.pk u) t s = true).
  { subst db'. unfold subscribe, subscription_management.
    cbn [req_user req_method req_POST]. rewrite Hr. cbn [negb].
    unfold key_rows in Hlen.
    destruct t as [p | j]; cbn [target_POST valid_target key_lookup] in *.
    - destruct (get_by_pk Publisher.pk (publishers db) p) as [pr|] eqn:Hp;
        [|discriminate].
      destruct (get_by_pk_some _ _ _ _ Hp) as [Hk _]. subst p.
      rewrite (SubscriptionForm_is_valid_publisher db _ pr Hp).
      pose proof (get_or_create_again Subscription.pk
                    (lookup_publisher (User.pk u) (Publisher.pk pr))
                    (fun k => Subscription.mk k (User.pk u)
                                (Some (Publisher.pk pr)) None)
                    (subscriptions db)
                    (lookup_publisher_new _ _) Hlen) as Hgc.
      destruct (get_or_create _ _ _ (subscriptions db))
        as [row|row table'|]; [| |contradiction]; cbn [db_after].
      + exists row. apply filter_In. rewrite Hgc. now left.
      + destruct Hgc as (_ & _ & Hone). exists row.
        cbn [subscriptions set_subscriptions]. apply filter_In.
        rewrite Hone. now left.
    - destruct (get_by_pk User.pk (filter User.is_journalist (users db)) j)
        as [jr|] eqn:Hj; [|discriminate].
      destruct (get_by_pk_some _ _ _ _ Hj) as [Hk _]. subst j.
      rewrite (SubscriptionForm_is_valid_journalist db _ jr Hj).
      pose proof (get_or_create_again Subscription.pk
                    (lookup_journalist (User.pk u) (User.pk jr))
                    (fun k => Subscription.mk k (User.pk u) None
                                (Some (User.pk jr)))
                    (subscriptions db)
                    (lookup_journalist_new _ _) Hlen) as Hgc.
      destruct (get_or_create _ _ _ (subscriptions db))
        as [row|row table'|]; [| |contradiction]; cbn [db_after].
      + exists row. apply filter_In. rewrite Hgc. now left.
      + destruct Hgc as (_ & _ & Hone). exists row.
        cbn [subscriptions set_subscriptions]. apply filter_In.
        rewrite Hone. now left. }
  assert (Hto : subscribed_to db' u n).
  { destruct Hsub as (s & Hs & Hk). exists s. split; [exact Hs|].
    destruct t as [p | j]; simpl in Hk, Hby;
      unfold lookup_publisher, lookup_journalist, option_nat_eqb in Hk;
      apply andb_prop in Hk as [Hu Ht]; apply Nat.eqb_eq in Hu.
    - destruct (Subscription.publisher s) as [q|]; [|discriminate].
      apply Nat.eqb_eq in Ht. subst q. split; [exact Hu|]. left. eauto.
    - destruct (Subscription.journalist s) as [q|]; [|discriminate].
      apply Nat.eqb_eq in Ht. subst q. split; [exact Hu|]. right.
      now rewrite Hby. }
  subst nls. unfold newsletter_list_queryset.
  rewrite (reader_not_journalist u Hr), Hr.
  apply firstn_sorted_complete; [apply order_by_sorted|].
  apply (Permutation_in _ (Permutation_sym (order_by_perm _))).
  apply in_distinct, filter_In. rewrite Hnl.
  split; [exact Hn | now apply in_subscriptions_iff].
Qed.

Lemma subscribe_shows_newsletters_witness :
  let nls :=
    newsletter_list_queryset
      (db_after (subscribe newsroom rita (ToJournalist 2))) (Some rita) in
  In digest nls
  \/ (List.length nls = 50
      /\ forall m, In m nls ->
           Newsletter.created_at digest <= Newsletter.created_at m).
Proof.
  apply (subscribe_shows_newsletters newsroom rita (ToJournalist 2) digest).
  - reflexivity.
  - reflexivity.
  - simpl. lia.
  - simpl. auto.
  - reflexivity.
Defined.

(** ** Registration *)

Lemma first_by_pk_nonempty {A} (pk_of : A -> nat) l x :
  In x l -> exists y, first_by_pk pk_of l = Some y.
Proof.
  destruct l as [|z zs]; [contradiction|]. intros _. simpl.
  destruct (first_by_pk pk_of zs) as [y|]; [|eauto].
  destruct (pk_of z <=? pk_of y); eauto.
Qed.

Lemma clean_choice_in {A} (pk_of : A -> nat) queryset raw row :
  clean_choice pk_of queryset raw = Some (Some row) -> In row queryset.
Proof.
  unfold clean_choice. destruct raw as [k|]; [|discriminate].
  destruct (get_by_pk pk_of queryset k) as [r|] eqn:E; [|discriminate].
  intros [= <-]. now apply get_by_pk_some in E.
Qed.

(** A choice that cleans to a row was made by the key of that row. *)
Lemma clean_choice_key {A} (pk_of : A -> nat) queryset raw row :
  clean_choice pk_of queryset raw = Some (Some row) ->
  raw = Some (pk_of row).
Proof.
  unfold clean_choice. destruct raw as [k|]; [|discriminate].
  destruct (get_by_pk pk_of queryset k) as [r|] eqn:E; [|discriminate].
  intros [= <-]. apply get_by_pk_some in E as [<- _]. reflexivity.
Qed.

(** What a valid registration form holds. *)
Lemma UserRegistrationForm_is_valid_some iexact db p f publisher name :
  UserRegistrationForm_is_valid iexact db p = Some (f, publisher, name) ->
  (forall house, publisher = Some house ->
     In house (publishers db) /\ reg_publisher p = Some (Publisher.pk house))
  /\ (reg_role f = Role.editor -> publisher <> None).
Proof.
  unfold UserRegistrationForm_is_valid.
  destruct (reg_fields p) as [f0|]; [|discriminate].
  destruct (clean_choice Publisher.pk (publishers db) (reg_publisher p))
    as [chosen|] eqn:Hc; [|discriminate].
  destruct (reg_publisher_name p) as [n0|]; [|discriminate].
  intros H.
  assert (Hsame : f = f0 /\ publisher = chosen).
  { destruct (reg_role f0); try (now injection H as <- <- <-).
    - destruct chosen; [now injection H as <- <- <- | discriminate].
    - destruct (String.eqb n0 EmptyString); [discriminate|].
      destruct (existsb _ (publishers db)); [discriminate|].
      now injection H as <- <- <-. }
  destruct Hsame as [-> ->]. split.
  - intros house ->. split.
    + now apply clean_choice_in in Hc.
    + now apply clean_choice_key in Hc.
  - intros Hrole. rewrite Hrole in H. destruct chosen; [discriminate|].
    discriminate.
Qed.

(** X27. Nobody registers as an editor without a team: when [register]
    creates an account with the editor role, it stores the user under a new
    key, without the staff flag, and appends the user to the editors of a
    stored publisher: the one whose key the publisher field of the form
    was sent with, and no other. *)
Theorem register_editor_joins iexact db request user :
  registered (register iexact db request) = Some user ->
  User.role user = Role.editor ->
  let db' := stored (register_reply (register iexact db request)) in
  User.is_staff user = false
  /\ (forall u, In u (users db) -> User.pk u <> User.pk user)
  /\ users db' = users db ++ [user]
  /\ exists publisher,
       In publisher (publishers db)
       /\ reg_publisher (req_POST request) = Some (Publisher.pk publisher)
       /\ publisher_editors db'
          = publisher_editors db ++ [(Publisher.pk publisher, User.pk user)]
       /\ publisher_journalists db' = publisher_journalists db.
Proof.
  unfold register. intros Hreg Hrole.
  destruct (req_method request); [discriminate|].
  destruct (UserRegistrationForm_is_valid iexact db (req_POST request))
    as [[[f publisher] name]|] eqn:Hform; [|discriminate].
  apply UserRegistrationForm_is_valid_some in Hform as [Hin Hneed].
  assert (Huser : user = User.mk (next_pk User.pk (users db)) (reg_username f)
                           (reg_email f) (reg_role f) false).
  { destruct (reg_role f), publisher; now injection Hreg as <-. }
  subst user. simpl in Hrole. specialize (Hneed Hrole). rewrite Hrole.
  destruct publisher as [house|]; [|contradiction].
  destruct (Hin house eq_refl) as [Hstored Hchosen].
  cbn [stored register_reply users publisher_editors publisher_journalists
       set_users set_publisher_editors User.is_staff User.pk].
  split; [reflexivity|]. split.
  - intros u Hu. pose proof (next_pk_fresh User.pk _ _ Hu). lia.
  - split; [reflexivity|]. exists house. repeat split; assumption.
Qed.

(** Of the two houses, the new editor joins the Herald, which the form
    names, and not the Tribune. *)
Lemma register_editor_joins_witness :
  let r := register same_text two_houses (mkRequest None POST herald_editor) in
  exists publisher,
    In publisher (publishers two_houses)
    /\ Some 2 = Some (Publisher.pk publisher)
    /\ publisher_editors (stored (register_reply r))
       = publisher_editors two_houses ++ [(Publisher.pk publisher, 6)]
    /\ publisher_journalists (stored (register_reply r))
       = publisher_journalists two_houses.
Proof.
  apply (register_editor_joins same_text two_houses
           (mkRequest None POST herald_editor)
           (User.mk 6 "ed" "ed@burst.example" Role.editor false));
    reflexivity.
Defined.

Example register_editor_herald :
  publisher_editors
    (stored (register_reply
               (register same_text two_houses
                  (mkRequest None POST herald_editor))))
  = [(1, 3); (2, 6)].
Proof. reflexivity. Qed.

(** X28. Registering as a publisher opens the dashboard: when [register]
    creates an account with the publisher role, it stores a publishing
    house owned by the new user, and the dashboard then shows that user a
    house they own instead of turning them away. *)
Theorem register_publisher_dashboard iexact db request user post :
  registered (register iexact db request) = Some user ->
  User.role user = Role.publisher ->
  let db' := stored (register_reply (register iexact db request)) in
  exists house,
    In house (publishers db')
    /\ Publisher.owner house = Some (User.pk user)
    /\ publisher_dashboard db' (mkRequest (Some user) GET post)
       = mkReply (Shown "news/publisher_dashboard.html"
                    (dashboard_context db' house false)) [] db'.
Proof.
  unfold register. intros Hreg Hrole.
  destruct (req_method request); [discriminate|].
  destruct (UserRegistrationForm_is_valid iexact db (req_POST request))
    as [[[f publisher] name]|] eqn:Hform; [|discriminate].
  assert (Huser : user = User.mk (next_pk User.pk (users db)) (reg_username f)
                           (reg_email f) (reg_role f) false).
  { destruct (reg_role f), publisher; now injection Hreg as <-. }
  subst user. simpl in Hrole. rewrite Hrole.
  set (user := User.mk (next_pk User.pk (users db)) (reg_username f)
                 (reg_email f) Role.publisher false).
  set (pub := Publisher.mk (next_pk Publisher.pk (publishers db)) name
                (Some (User.pk user))).
  cbn [stored register_reply].
  set (db' := set_publishers (set_users db (users db ++ [user]))
                (publishers db ++ [pub])).
  assert (Hown : In pub (owned_publishers db' user)).
  { unfold owned_publishers. apply filter_In. split.
    - subst db'. simpl. apply in_or_app. right. now left.
    - subst pub. simpl. apply Nat.eqb_refl. }
  destruct (first_by_pk_nonempty Publisher.pk _ _ Hown) as [house Hfirst].
  exists house.
  destruct (owned_publishers_in _ _ _
              (first_by_pk_in _ _ _ Hfirst)) as [Hin Howner].
  split; [exact Hin|]. split; [exact Howner|].
  unfold publisher_dashboard. cbn [req_user req_method].
  assert (Hpub : User.is_publisher user = true) by reflexivity.
  rewrite Hpub, Hfirst. reflexivity.
Qed.

Lemma register_publisher_dashboard_witness :
  let r := register same_text newsroom (mkRequest None POST new_house) in
  let db' := stored (register_reply r) in
  exists house,
    In house (publishers db')
    /\ Publisher.owner house = Some 6
    /\ publisher_dashboard db'
         (mkRequest (Some (User.mk 6 "quinn" "quinn@burst.example"
                             Role.publisher false)) GET add_eve)
       = mkReply (Shown "news/publisher_dashboard.html"
                    (dashboard_context db' house false)) [] db'.
Proof.
  apply (register_publisher_dashboard same_text newsroom
           (mkRequest None POST new_house)
           (User.mk 6 "quinn" "quinn@burst.example" Role.publisher false)
           add_eve);
    reflexivity.
Defined.

(** X29. Registration keeps the team lists consistent with the roles: if
    every listed editor has the editor role and every listed journalist
    the journalist role, the same holds after any request to [register]. *)
Theorem register_team_roles iexact db request :
  team_roles_ok db ->
  team_roles_ok (stored (register_reply (register iexact db request))).
Proof.
  intros [Hed Hjo]. unfold register.
  destruct (req_method request); [now split|].
  destruct (UserRegistrationForm_is_valid iexact db (req_POST request))
    as [[[f publisher] name]|]; [|now split].
  assert (Hold_ed : forall user p k, In (p, k) (publisher_editors db) ->
            exists u, In u (users db ++ [user]) /\ User.pk u = k
                      /\ User.role u = Role.editor).
  { intros user p k Hin. destruct (Hed p k Hin) as (u & Hu & Hrest).
    exists u. split; [apply in_or_app; now left | exact Hrest]. }
  assert (Hold_jo : forall user p k, In (p, k) (publisher_journalists db) ->
            exists u, In u (users db ++ [user]) /\ User.pk u = k
                      /\ User.role u = Role.journalist).
  { intros user p k Hin. destruct (Hjo p k Hin) as (u & Hu & Hrest).
    exists u. split; [apply in_or_app; now left | exact Hrest]. }
  destruct (reg_role f), publisher as [house|];
    cbn [stored register_reply]; split; simpl; intros p k Hin;
    try (now apply Hold_ed with p); try (now apply Hold_jo with p).
  - apply in_app_or in Hin as [Hin | [[= <- <-] | []]];
      [now apply Hold_jo with p|].
    eexists. split; [apply in_or_app; right; left; reflexivity|].
    split; reflexivity.
  - apply in_app_or in Hin as [Hin | [[= <- <-] | []]];
      [now apply Hold_ed with p|].
    eexists. split; [apply in_or_app; right; left; reflexivity|].
    split; reflexivity.
Qed.

Lemma register_team_roles_witness :
  team_roles_ok
    (stored (register_reply
               (register same_text owned_newsroom
                  (mkRequest None POST new_editor)))).
Proof.
  apply register_team_roles. split; intros p k Hin; simpl in Hin.
  - destruct Hin as [[= <- <-] | []]. exists erin. simpl. auto.
  - destruct Hin as [[= <- <-] | []]. exists alice. simpl. auto.
Defined.

(** ** Searching *)

